(** * Sandbox.js: the Terrific sandbox (mediator) and its contracts

    A shallow embedding of [src/Sandbox.js].  The sandbox is a thin object:
    it forwards life-cycle requests to the application, reads the
    configuration object and relays events to the registered connectors.

    - JavaScript values are the inductive [value]; objects that are only
      passed around (module handles, functions) are references [VObject].
    - The configuration is a JavaScript object with data properties: its
      own properties in a [gmap], followed by the prototype chain that
      [config[name]] walks.
    - The DOM is a forest of rose trees whose nodes carry an identity.
    - The application and the connectors are collaborators that live outside
      [Sandbox.js]; they are parameters of the model.  Every call the sandbox
      makes to them is written to a log, so that order and arguments of the
      calls can be stated. *)

From Stdlib Require Import ZArith Lia.
From stdpp Require Import base option list strings gmap.

Open Scope string_scope.
Open Scope list_scope.

(* ===================================================================== *)
(** ** JavaScript values *)
(* ===================================================================== *)

(** Identity of a DOM node and of any other heap object. *)
Definition node_id := nat.
Definition loc := nat.

#[warnings="-register-all"]
Inductive value : Type :=
| VUndefined
| VNull
| VBool (b : bool)
| VNum (z : Z)
| VNaN
| VStr (s : string)
| VNode (n : node_id)          (* a DOM node: [v instanceof Node] *)
| VArray (elems : list value)  (* an array: [Array.isArray(v)] *)
| VObject (l : loc).           (* any other object, compared by reference *)

(** [v !== undefined] *)
Definition is_undefined (v : value) : bool :=
  match v with VUndefined => true | _ => false end.

(** [v instanceof Node] *)
Definition instanceof_Node (v : value) : bool :=
  match v with VNode _ => true | _ => false end.

(** [Array.isArray(v)] *)
Definition Array_isArray (v : value) : bool :=
  match v with VArray _ => true | _ => false end.

(** ToBoolean, as applied by [if (module)]. *)
Definition truthy (v : value) : bool :=
  match v with
  | VUndefined | VNull | VNaN => false
  | VBool b => b
  | VNum z => negb (z =? 0)%Z
  | VStr s => negb (String.eqb s "")
  | VNode _ | VArray _ | VObject _ => true
  end.

(** What a [throw] carries. *)
Inductive exn : Type :=
| JsError (message : string)     (* [throw Error(message)] *)
| DOMException (name : string)   (* raised by a DOM operation *)
| Thrown (v : value).            (* raised by a collaborator *)

(* ===================================================================== *)
(** ** Objects and property lookup *)
(* ===================================================================== *)

(** An ordinary object with data properties: its own properties and the own
    properties of the objects on its prototype chain, nearest first. *)
Record JSObject : Type := mkObject {
  own_props : gmap string value;
  proto_chain : list (gmap string value)
}.

(** [[Get]] along a prototype chain: the first object that has the property
    decides, also when it binds the property to [undefined]. *)
Fixpoint chain_get (chain : list (gmap string value)) (k : string) : value :=
  match chain with
  | [] => VUndefined
  | o :: rest =>
      match o !! k with
      | Some v => v
      | None => chain_get rest k
      end
  end.

(** [o[k]] *)
Definition js_get (o : JSObject) (k : string) : value :=
  chain_get (own_props o :: proto_chain o) k.

(** [k in o] *)
Definition js_has (o : JSObject) (k : string) : bool :=
  existsb (fun p : gmap string value => bool_decide (is_Some (p !! k)))
          (own_props o :: proto_chain o).

(** [Object.prototype], as far as its property names matter here; the
    values are built-in functions. *)
Definition Object_prototype : gmap string value :=
  {[ "constructor" := VObject 1;
     "toString" := VObject 2;
     "valueOf" := VObject 3;
     "hasOwnProperty" := VObject 4 ]}.

(** An object literal [{ k1: v1, ... }]. *)
Definition object_literal (props : list (string * value)) : JSObject :=
  mkObject (list_to_map props) [Object_prototype].

(** [Object.create(null)] filled with the given properties. *)
Definition bare_object (props : list (string * value)) : JSObject :=
  mkObject (list_to_map props) [].


(* ===================================================================== *)
(** ** The DOM *)
(* ===================================================================== *)

(** The interfaces that inherit from [Node]. *)
Inductive node_kind : Type :=
| ElementNode
| CharacterDataNode        (* Text, Comment, ProcessingInstruction *)
| DocumentFragmentNode
| DocumentNode
| DocumentTypeNode
| AttrNode.

(** A node with its identity, its attributes and its children in document
    order. *)
#[warnings="-register-all"]
Inductive dnode : Type :=
  DNode { nid : node_id;
          nkind : node_kind;
          nattrs : list (string * string);
          nkids : list dnode }.

(** The roots of the page: the document and every tree that is not attached
    to it. *)
Definition DOM := list dnode.

Section dnode_induction.
Variable P : dnode -> Prop.
Hypothesis step : forall i k a ks, Forall P ks -> P (DNode i k a ks).

Fixpoint dnode_kids_ind (t : dnode) : P t :=
  match t with
  | DNode i k a ks =>
      step i k a ks
        ((fix all (l : list dnode) : Forall P l :=
            match l with
            | [] => List.Forall_nil P
            | c :: l' => List.Forall_cons P c l' (dnode_kids_ind c) (all l')
            end) ks)
  end.
End dnode_induction.

(** Identities of a tree, in document order. *)
Fixpoint tree_ids (t : dnode) : list node_id :=
  nid t :: flat_map tree_ids (nkids t).

Definition forest_ids (d : DOM) : list node_id := flat_map tree_ids d.

(** The first answer among the elements of a list. *)
Definition first_some {X Y : Type} (f : X -> option Y) : list X -> option Y :=
  fix go (l : list X) : option Y :=
    match l with
    | [] => None
    | x :: l' =>
        match f x with
        | Some r => Some r
        | None => go l'
        end
    end.

(** The node of identity [n], with its subtree. *)
Fixpoint tree_find (n : node_id) (t : dnode) : option dnode :=
  if decide (nid t = n) then Some t
  else first_some (tree_find n) (nkids t).

Definition forest_find (n : node_id) (d : DOM) : option dnode :=
  first_some (tree_find n) d.



(** Removing the node [n] from its parent, wherever it is. *)
Fixpoint tree_prune (n : node_id) (t : dnode) : dnode :=
  DNode (nid t) (nkind t) (nattrs t)
        (filter (fun c => nid c ≠ n) (map (tree_prune n) (nkids t))).

Definition forest_prune (n : node_id) (d : DOM) : DOM :=
  filter (fun c => nid c ≠ n) (map (tree_prune n) d).

(** Appending the trees [ts] after the last child of the node [p]. *)
Fixpoint tree_graft (p : node_id) (ts : list dnode) (t : dnode) : dnode :=
  DNode (nid t) (nkind t) (nattrs t)
        (map (tree_graft p ts) (nkids t) ++ (if decide (nid t = p) then ts else [])).

Definition forest_graft (p : node_id) (ts : list dnode) (d : DOM) : DOM :=
  map (tree_graft p ts) d.

(** Emptying the node [p]. *)
Fixpoint tree_clear (p : node_id) (t : dnode) : dnode :=
  DNode (nid t) (nkind t) (nattrs t)
        (if decide (nid t = p) then [] else map (tree_clear p) (nkids t)).

Definition forest_clear (p : node_id) (d : DOM) : DOM := map (tree_clear p) d.

(** An identity that no node of [d] has. *)
Definition fresh_id (d : DOM) : node_id := S (foldr Nat.max 0 (forest_ids d)).

(** [document.createDocumentFragment()]: a new, empty root. *)
Definition createDocumentFragment (d : DOM) : node_id * DOM :=
  let f := fresh_id d in
  (f, d ++ [DNode f DocumentFragmentNode [] []]).

(** [parent.appendChild(child)].  The pre-insertion checks of the DOM
    standard: the parent is a document, a fragment or an element; the child
    is not an ancestor of the parent; a document or an attribute is never a
    child, a doctype only of a document.  A fragment hands over its
    children; any other node is first removed from its parent. *)
Definition appendChild (p c : node_id) (d : DOM) : exn + DOM :=
  match forest_find p d, forest_find c d with
  | Some pt, Some ct =>
      match nkind pt with
      | ElementNode | DocumentFragmentNode | DocumentNode =>
          if bool_decide (p ∈ tree_ids ct) then inl (DOMException "HierarchyRequestError")
          else
            match nkind ct with
            | ElementNode => inr (forest_graft p [ct] (forest_prune c d))
            | CharacterDataNode =>
                match nkind pt with
                | DocumentNode => inl (DOMException "HierarchyRequestError")
                | _ => inr (forest_graft p [ct] (forest_prune c d))
                end
            | DocumentFragmentNode => inr (forest_graft p (nkids ct) (forest_clear c d))
            | DocumentNode | DocumentTypeNode | AttrNode =>
                inl (DOMException "HierarchyRequestError")
            end
      | _ => inl (DOMException "HierarchyRequestError")
      end
  | _, _ => inl (DOMException "NotFoundError")
  end.

(** [el.getAttribute(name)]: the value, or [null]. *)
Definition getAttribute (name : string) (t : dnode) : value :=
  match list_find (fun kv : string * string => kv.1 = name) (nattrs t) with
  | Some (_, (_, v)) => VStr v
  | None => VNull
  end.

(** The selector [[name]]: an element that has the attribute. *)
Definition matches_attr (name : string) (t : dnode) : bool :=
  match nkind t with
  | ElementNode => bool_decide (name ∈ map fst (nattrs t))
  | _ => false
  end.

(** A tree in document order, the root first. *)
Fixpoint tree_nodes (t : dnode) : list dnode :=
  t :: flat_map tree_nodes (nkids t).

(** [root.querySelectorAll('[name]')]: the matching descendants of [root],
    in document order; the root itself is not a candidate. *)
Definition querySelectorAll_attr (name : string) (root : node_id) (d : DOM) : list dnode :=
  match forest_find root d with
  | Some t => List.filter (matches_attr name) (flat_map tree_nodes (nkids t))
  | None => []
  end.

(* ===================================================================== *)
(** ** Collaborators, the world and its effects *)
(* ===================================================================== *)

(** A connector is an object with an [emit] method; the sandbox only ever
    compares connectors by reference. *)
Definition connector := loc.

(** The calls that leave the sandbox, as they are made. *)
Inductive event : Type :=
| EvRegisterModules (ctx : value)
| EvStart (modules : value)
| EvStop (modules : value)
| EvUnregisterModules (modules : value)
| EvGetModuleById (id : value)
| EvEmit (c : connector) (this_arg : value) (args : list value)
| EvCreateDocumentFragment (fragment : node_id)
| EvAppendChild (parent child : node_id).

(** What a call into a collaborator does: it returns or throws, and leaves
    the collaborators in a new state.  A collaborator does not call back
    into the sandbox and does not change the page while the sandbox runs. *)
Inductive reply (A : Type) : Type :=
| Returns (v : value) (a : A)
| Raises (e : exn) (a : A).
Arguments Returns {A} v a.
Arguments Raises {A} e a.

(** The application, as far as the sandbox calls it.  [A] is the state of
    the code outside the sandbox: the application, its modules and the
    connectors. *)
Record Application (A : Type) : Type := {
  registerModules : value -> A -> reply A;
  start : value -> A -> reply A;
  stop : value -> A -> reply A;
  unregisterModules : value -> A -> reply A;
  getModuleById : value -> A -> reply A
}.
Arguments registerModules {A} _ _ _.
Arguments start {A} _ _ _.
Arguments stop {A} _ _ _.
Arguments unregisterModules {A} _ _ _.
Arguments getModuleById {A} _ _ _.

(** [function Sandbox(application, config)] *)
Record Sandbox (A : Type) : Type := {
  _application : Application A;
  _config : JSObject;
  _connectors : list connector
}.
Arguments _application {A} _.
Arguments _config {A} _.
Arguments _connectors {A} _.

Definition new_Sandbox {A : Type} (application : Application A) (config : JSObject)
  : Sandbox A :=
  {| _application := application; _config := config; _connectors := [] |}.

(** The page, the collaborators, and the calls made so far (oldest first). *)
Record World (A : Type) : Type := {
  page : DOM;
  outside : A;
  log : list event
}.
Arguments page {A} _.
Arguments outside {A} _.
Arguments log {A} _.

(** A statement completes normally with a result, or abruptly with what was
    thrown. *)
Inductive outcome (A X : Type) : Type :=
| Normal (x : X) (w : World A)
| Abrupt (e : exn) (w : World A).
Arguments Normal {A X} x w.
Arguments Abrupt {A X} e w.

Definition M (A X : Type) : Type := World A -> outcome A X.

Definition ret {A X : Type} (x : X) : M A X := fun w => Normal x w.

Definition bind {A X Y : Type} (m : M A X) (k : X -> M A Y) : M A Y :=
  fun w =>
    match m w with
    | Normal x w' => k x w'
    | Abrupt e w' => Abrupt e w'
    end.

Notation "'let!' x ':=' m 'in' k" := (bind m (fun x => k))
  (at level 10, x pattern, m at level 100, k at level 200).
Notation "m ';;' k" := (bind m (fun _ => k))
  (at level 100, k at level 200, right associativity).

(** A call into a collaborator: noted in the log, then run. *)
Definition call {A : Type} (ev : event) (f : A -> reply A) : M A value :=
  fun w =>
    match f (outside w) with
    | Returns v a => Normal v {| page := page w; outside := a; log := log w ++ [ev] |}
    | Raises e a => Abrupt e {| page := page w; outside := a; log := log w ++ [ev] |}
    end.

(** [document.createDocumentFragment()] *)
Definition document_createDocumentFragment {A : Type} : M A node_id :=
  fun w =>
    let '(f, d) := createDocumentFragment (page w) in
    Normal f {| page := d; outside := outside w;
                log := log w ++ [EvCreateDocumentFragment f] |}.

(** [parent.appendChild(child)] *)
Definition Node_appendChild {A : Type} (parent child : node_id) : M A unit :=
  fun w =>
    let w' := {| page := page w; outside := outside w;
                 log := log w ++ [EvAppendChild parent child] |} in
    match appendChild parent child (page w) with
    | inr d => Normal tt {| page := d; outside := outside w; log := log w' |}
    | inl e => Abrupt e w'
    end.

(** [root.querySelectorAll('[name]')] *)
Definition Node_querySelectorAll {A : Type} (root : node_id) (name : string)
  : M A (list dnode) :=
  fun w => Normal (querySelectorAll_attr name root (page w)) w.

(** [[].forEach.call(list, callback)], the callback updating the variables
    [acc] it closes over. *)
Fixpoint forEach {A X S : Type} (l : list X) (callback : X -> S -> M A S) (acc : S)
  : M A S :=
  match l with
  | [] => ret acc
  | x :: l' => let! acc' := callback x acc in forEach l' callback acc'
  end.

(* ===================================================================== *)
(** ** Sandbox.prototype *)
(* ===================================================================== *)

Section Sandbox_prototype.
Context {A : Type}.

(** [c.emit], for every connector [c]: called with a [this] and a list of
    arguments. *)
Variable emit : connector -> value -> list value -> A -> reply A.

(** [Sandbox.prototype.addModules] *)
Definition addModules (this : Sandbox A) (ctx : value) : M A value :=
  let modules := VArray [] in
  let application := _application this in
  if instanceof_Node ctx then
    let! modules := call (EvRegisterModules ctx) (registerModules application ctx) in
    call (EvStart modules) (start application modules) ;;
    ret modules
  else
    ret modules.

(** [Sandbox.prototype.getModuleById] *)
Definition Sandbox_getModuleById (this : Sandbox A) (id : value) : M A value :=
  call (EvGetModuleById id) (getModuleById (_application this) id).

(** The callback of [forEach] in [removeModules]; [tmpModules.push]
    appends. *)
Definition collect_module (this : Sandbox A) (ctx : dnode) (tmpModules : list value)
  : M A (list value) :=
  let id := getAttribute "data-t-id" ctx in
  if negb (is_undefined id) then
    let! module := Sandbox_getModuleById this id in
    if truthy module then ret (tmpModules ++ [module]) else ret tmpModules
  else
    ret tmpModules.

(** Lines 78 to 99 of [removeModules]: a node is replaced by the modules
    found below it. *)
Definition modules_of (this : Sandbox A) (modules : value) : M A value :=
  match modules with
  | VNode n =>
      let tmpModules := [] in
      let! fragment := document_createDocumentFragment in
      Node_appendChild fragment n ;;
      let! found := Node_querySelectorAll fragment "data-t-name" in
      let! tmpModules := forEach found (collect_module this) tmpModules in
      ret (VArray tmpModules)
  | _ => ret modules
  end.

(** [Sandbox.prototype.removeModules] *)
Definition removeModules (this : Sandbox A) (modules : value) : M A (Sandbox A) :=
  let application := _application this in
  let! modules := modules_of this modules in
  (if Array_isArray modules then
     call (EvStop modules) (stop application modules) ;;
     call (EvUnregisterModules modules) (unregisterModules application modules) ;;
     ret tt
   else
     ret tt) ;;
  ret this.

(** [Sandbox.prototype.getConfig] *)
Definition getConfig (this : Sandbox A) : JSObject := _config this.

(** [Sandbox.prototype.getConfigParam] *)
Definition getConfigParam (this : Sandbox A) (name : string) : exn + value :=
  let config := _config this in
  if negb (is_undefined (js_get config name)) then
    inr (js_get config name)
  else
    inl (JsError ("The config param " +:+ name +:+ " does not exist")).

(** [Sandbox.prototype.addConnector] *)
Definition addConnector (this : Sandbox A) (c : connector) : Sandbox A :=
  {| _application := _application this;
     _config := _config this;
     _connectors := _connectors this ++ [c] |}.

(** The loop of [dispatch] over [connectors[i]], [i] from [0] to [len].
    [emit.apply(args)] calls [emit] with [args] as its [this] and without
    arguments. *)
Fixpoint dispatch_loop (connectors : list connector) (origin : connector)
    (args : list value) : M A unit :=
  match connectors with
  | [] => ret tt
  | c :: rest =>
      (if negb (bool_decide (c = origin)) then
         call (EvEmit c (VArray args) []) (emit c (VArray args) []) ;; ret tt
       else
         ret tt) ;;
      dispatch_loop rest origin args
  end.

(** [Sandbox.prototype.dispatch] *)
Definition dispatch (this : Sandbox A) (origin : connector) (payload : list value)
  : M A (Sandbox A) :=
  let connectors := _connectors this in
  let args := payload in
  dispatch_loop connectors origin args ;;
  ret this.

End Sandbox_prototype.

(* ===================================================================== *)
(** ** Vocabulary of the statements *)
(* ===================================================================== *)

(** The world in which a statement ends, normally or not. *)
Definition final_world {A X : Type} (o : outcome A X) : World A :=
  match o with
  | Normal _ w => w
  | Abrupt _ w => w
  end.

(** The call that [dispatch] makes for the entry [c]. *)
Definition relayed (payload : list value) (c : connector) : event :=
  EvEmit c (VArray payload) [].

(** The entries that are not the origin, position by position. *)
Definition receivers (origin : connector) (connectors : list connector) : list connector :=
  filter (fun c => c ≠ origin) connectors.

Section Emit_behaviour.
Context {A : Type}.
Variable emit : connector -> value -> list value -> A -> reply A.

(** [c.emit] returns when it is called the way [dispatch] calls it. *)
Definition emit_returns (payload : list value) (c : connector) : Prop :=
  forall a, exists v a', emit c (VArray payload) [] a = Returns v a'.

(** [c.emit] throws [e] when it is called the way [dispatch] calls it. *)
Definition emit_throws (payload : list value) (c : connector) (e : exn) : Prop :=
  forall a, exists a', emit c (VArray payload) [] a = Raises e a'.
End Emit_behaviour.

(** The elements below and including [t] that carry the module marker
    [data-t-name], in document order. *)
Definition module_roots (t : dnode) : list dnode :=
  List.filter (matches_attr "data-t-name") (tree_nodes t).

(** The identifier that [removeModules] reads from a module root. *)
Definition module_id (el : dnode) : value := getAttribute "data-t-id" el.

(** The lookups that [removeModules] makes for the elements [els]. *)
Definition lookups (els : list dnode) : list event :=
  map (fun el => EvGetModuleById (module_id el)) els.

(** The handles of the elements [els] whose identifier resolves, that is,
    for which the lookup answers a truthy value. *)
Definition resolved (lookup : value -> value) (els : list dnode) : list value :=
  List.filter truthy (map (fun el => lookup (module_id el)) els).

(** The page after the tree [t] of the node [n] has been moved into a new
    fragment. *)
Definition detached (d : DOM) (n : node_id) (t : dnode) : DOM :=
  forest_prune n d ++ [DNode (fresh_id d) DocumentFragmentNode [] [t]].

(** [w'] is [w] after further calls: the page is the same, the log has grown. *)
Definition extends {A : Type} (w w' : World A) : Prop :=
  page w' = page w /\ exists rest, log w' = log w ++ rest.

(** A statement that leaves the page alone and only adds to the log. *)
Definition frames {A X : Type} (m : M A X) : Prop :=
  forall w, extends w (final_world (m w)).

(** The world after the tree [t] of the node [n] has been moved into a new
    fragment. *)
Definition moved {A : Type} (w : World A) (n : node_id) (t : dnode) : World A :=
  {| page := detached (page w) n t;
     outside := outside w;
     log := log w ++ [EvCreateDocumentFragment (fresh_id (page w));
                      EvAppendChild (fresh_id (page w)) n] |}.

(** Lines 101 to 109 of [removeModules]. *)
Definition stop_and_unregister {A : Type} (this : Sandbox A) (modules : value)
  : M A (Sandbox A) :=
  (if Array_isArray modules then
     call (EvStop modules) (stop (_application this) modules) ;;
     call (EvUnregisterModules modules) (unregisterModules (_application this) modules) ;;
     ret tt
   else ret tt) ;;
  ret this.

(* ===================================================================== *)
(** ** Collaborators used in the examples *)
(* ===================================================================== *)

(** The modules an example application knows: ["1"] and ["2"]. *)
Definition example_lookup (id : value) : value :=
  match id with
  | VStr s =>
      if String.eqb s "1" then VObject 101
      else if String.eqb s "2" then VObject 102
      else VUndefined
  | _ => VUndefined
  end.

(** An application that counts the calls it receives. *)
Definition example_application : Application nat :=
  {| registerModules := fun _ a => Returns (VArray [VObject 101; VObject 102]) (S a);
     start := fun _ a => Returns VUndefined (S a);
     stop := fun _ a => Returns VUndefined (S a);
     unregisterModules := fun _ a => Returns VUndefined (S a);
     getModuleById := fun id a => Returns (example_lookup id) a |}.

(** Connectors whose [emit] returns, except that of connector [13], which
    throws. *)
Definition example_emit (c : connector) (this_arg : value) (args : list value) (a : nat)
  : reply nat :=
  if Nat.eqb c 13 then Raises (Thrown (VStr "emit failed")) (S a)
  else Returns VUndefined (S a).

Definition example_sandbox (config : JSObject) : Sandbox nat :=
  new_Sandbox example_application config.

(** A [div] with two registered modules, a module that is no longer
    registered, an element that is not a module, and a module root that has
    no identifier yet. *)
Definition example_main : dnode :=
  DNode 2 ElementNode [("id", "main")]
    [ DNode 3 ElementNode [("data-t-name", "Teaser"); ("data-t-id", "1")]
        [ DNode 4 CharacterDataNode [] [] ];
      DNode 5 ElementNode [("data-t-name", "Gone"); ("data-t-id", "7")] [];
      DNode 6 ElementNode [("class", "plain")] [];
      DNode 7 ElementNode [("data-t-name", "Slider"); ("data-t-id", "2")] [];
      DNode 8 ElementNode [("data-t-name", "Fresh")] [] ].

(** A page: a document whose body holds that [div]. *)
Definition example_page : DOM :=
  [ DNode 0 DocumentNode [] [ DNode 1 ElementNode [] [ example_main ] ] ].

Definition example_world : World nat :=
  {| page := example_page; outside := 0; log := [] |}.

(* ===================================================================== *)
(** ** Vocabulary of the further statements *)
(* ===================================================================== *)

(** The event is a call of [c.emit]. *)
Definition is_emit_of (c : connector) (ev : event) : bool :=
  match ev with
  | EvEmit c' _ _ => Nat.eqb c' c
  | _ => false
  end.

(** How often [c.emit] is called in a run of events. *)
Definition emit_calls_to (c : connector) (evs : list event) : nat :=
  length (List.filter (is_emit_of c) evs).

(** How often [c] was registered. *)
Definition occurrences (c : connector) (connectors : list connector) : nat :=
  length (List.filter (fun c' => Nat.eqb c' c) connectors).

(** The event is a call of [stop] or of [unregisterModules]. *)
Definition is_teardown (ev : event) : bool :=
  match ev with
  | EvStop _ | EvUnregisterModules _ => true
  | _ => false
  end.

(** A statement that adds to the log only events of the kind [P]. *)
Definition adds {A X : Type} (P : event -> Prop) (m : M A X) : Prop :=
  forall w, exists rest, log (final_world (m w)) = log w ++ rest /\ Forall P rest.

(** The module roots that [removeModules] finds below a fragment whose
    children are [ks]. *)
Definition module_roots_below (ks : list dnode) : list dnode :=
  List.filter (matches_attr "data-t-name") (flat_map tree_nodes ks).

(** The example application with one method that throws.  Its
    [getModuleById] then throws for the identifiers it does not know, the
    other methods throw at every call. *)
Definition faulty_application (fault : string) : Application nat :=
  {| registerModules := fun ctx a =>
       if String.eqb fault "registerModules" then Raises (Thrown (VStr fault)) a
       else registerModules example_application ctx a;
     start := fun ms a =>
       if String.eqb fault "start" then Raises (Thrown (VStr fault)) a
       else start example_application ms a;
     stop := fun ms a =>
       if String.eqb fault "stop" then Raises (Thrown (VStr fault)) a
       else stop example_application ms a;
     unregisterModules := fun ms a =>
       if String.eqb fault "unregisterModules" then Raises (Thrown (VStr fault)) a
       else unregisterModules example_application ms a;
     getModuleById := fun id a =>
       if String.eqb fault "getModuleById" && negb (truthy (example_lookup id))
       then Raises (Thrown (VStr fault)) a
       else Returns (example_lookup id) a |}.

(** The page after the children of the fragment [n], whose tree is [t],
    have been handed over to a new fragment. *)
Definition handed_over (d : DOM) (n : node_id) (t : dnode) : DOM :=
  forest_clear n d ++ [DNode (fresh_id d) DocumentFragmentNode [] (nkids t)].

(* ===================================================================== *)
(** ** Configuration lookup *)
(* ===================================================================== *)

Example get_own : js_get (object_literal [("retries", VNum 0)]) "retries" = VNum 0.
Proof. vm_compute. reflexivity. Qed.

Example get_inherited : js_get (object_literal []) "constructor" = VObject 1.
Proof. vm_compute. reflexivity. Qed.

Example get_missing : js_get (object_literal []) "missing" = VUndefined.
Proof. vm_compute. reflexivity. Qed.

Section Configuration.
Context {A : Type}.
Implicit Types (this : Sandbox A) (k : string) (v : value).

Lemma chain_get_absent (chain : list (gmap string value)) k :
  existsb (fun p : gmap string value => bool_decide (is_Some (p !! k))) chain = false ->
  chain_get chain k = VUndefined.
Proof.
  induction chain as [|o rest IH]; simpl; [done|].
  intros H. apply orb_false_iff in H as [Ho Hrest].
  apply bool_decide_eq_false in Ho.
  destruct (o !! k) as [v|] eqn:E.
  - exfalso. apply Ho. by exists v.
  - by apply IH.
Qed.

Lemma js_get_absent (o : JSObject) k : js_has o k = false -> js_get o k = VUndefined.
Proof. apply chain_get_absent. Qed.

Lemma js_get_own (o : JSObject) k v : own_props o !! k = Some v -> js_get o k = v.
Proof. intros H. unfold js_get. simpl. by rewrite H. Qed.

Lemma getConfigParam_undefined this k :
  js_get (_config this) k = VUndefined ->
  getConfigParam this k = inl (JsError ("The config param " +:+ k +:+ " does not exist")).
Proof. intros H. unfold getConfigParam. by rewrite H. Qed.

Lemma getConfigParam_defined this k v :
  js_get (_config this) k = v -> v ≠ VUndefined -> getConfigParam this k = inr v.
Proof.
  intros H Hv. unfold getConfigParam. rewrite H.
  destruct v; simpl; congruence.
Qed.

(** What is returned is never [undefined]. *)
Lemma getConfigParam_never_undefined this k : getConfigParam this k ≠ inr VUndefined.
Proof.
  unfold getConfigParam.
  destruct (js_get (_config this) k) eqn:E; simpl; congruence.
Qed.

End Configuration.

Section Configuration_claims.
Context {A : Type}.
Implicit Types (this : Sandbox A) (k : string) (v : value).

(** C2 (amended): for every configuration object and every key that is
    neither an own property of it nor inherited along its prototype chain,
    [getConfigParam] throws the error whose message names the key. *)
Theorem getConfigParam_missing_key this k :
  js_has (_config this) k = false ->
  getConfigParam this k = inl (JsError ("The config param " +:+ k +:+ " does not exist")).
Proof. intros H. apply getConfigParam_undefined. by apply js_get_absent. Qed.

(** C3 (amended): for every key that the configuration object binds to a
    value other than [undefined], [getConfigParam] returns exactly that
    value; zero, the empty string and [false] are such values. *)
Theorem getConfigParam_present_key this k v :
  own_props (_config this) !! k = Some v ->
  v ≠ VUndefined ->
  getConfigParam this k = inr v.
Proof. intros H Hv. apply getConfigParam_defined; [by apply js_get_own|done]. Qed.

(** C10: a key that the configuration object binds to [undefined] is
    answered like a key that is missing, with the error that names the key,
    although the object returned by [getConfig] has the key. *)
Theorem getConfigParam_undefined_binding this k :
  own_props (_config this) !! k = Some VUndefined ->
  getConfigParam this k = inl (JsError ("The config param " +:+ k +:+ " does not exist"))
  /\ (forall that : Sandbox A,
        js_has (_config that) k = false -> getConfigParam this k = getConfigParam that k)
  /\ k ∈ dom (own_props (getConfig this))
  /\ js_has (getConfig this) k = true.
Proof.
  intros H.
  assert (E : getConfigParam this k
              = inl (JsError ("The config param " +:+ k +:+ " does not exist"))).
  { apply getConfigParam_undefined. by apply js_get_own. }
  split; [exact E|]. split; [|split].
  - intros that Hthat. rewrite E. symmetry.
    apply getConfigParam_undefined. by apply js_get_absent.
  - apply elem_of_dom. by exists VUndefined.
  - unfold js_has, getConfig. simpl. apply orb_true_iff. left.
    apply bool_decide_eq_true. by exists VUndefined.
Qed.

End Configuration_claims.

(** C2, as stated, fails: the object literal [{}] has no key
    ["constructor"], yet [getConfigParam("constructor")] returns the
    function inherited from [Object.prototype] instead of throwing. *)
Lemma getConfigParam_inherited_key_returns :
  own_props (getConfig (example_sandbox (object_literal []))) !! "constructor" = None
  /\ getConfigParam (example_sandbox (object_literal [])) "constructor" = inr (VObject 1).
Proof. split; vm_compute; reflexivity. Qed.

Lemma getConfigParam_missing_key_witness :
  js_has (_config (example_sandbox (object_literal []))) "missing" = false
  /\ getConfigParam (example_sandbox (object_literal [])) "missing"
     = inl (JsError "The config param missing does not exist").
Proof.
  split; [vm_compute; reflexivity|].
  apply (getConfigParam_missing_key (example_sandbox (object_literal [])) "missing").
  vm_compute; reflexivity.
Defined.

(** C3, as stated, fails: the key ["timeout"] is present in
    [{ timeout: undefined }], yet [getConfigParam("timeout")] throws instead
    of returning the value of the key. *)
Lemma getConfigParam_present_undefined_throws :
  own_props (getConfig (example_sandbox (object_literal [("timeout", VUndefined)])))
    !! "timeout" = Some VUndefined
  /\ getConfigParam (example_sandbox (object_literal [("timeout", VUndefined)])) "timeout"
     = inl (JsError "The config param timeout does not exist").
Proof. split; vm_compute; reflexivity. Qed.

Lemma getConfigParam_present_key_witness :
  getConfigParam (example_sandbox (object_literal [("retries", VNum 0)])) "retries"
  = inr (VNum 0).
Proof.
  apply (getConfigParam_present_key
           (example_sandbox (object_literal [("retries", VNum 0)])) "retries" (VNum 0)).
  - vm_compute; reflexivity.
  - discriminate.
Defined.

Lemma getConfigParam_undefined_binding_witness :
  getConfigParam (example_sandbox (object_literal [("timeout", VUndefined)])) "timeout"
  = inl (JsError "The config param timeout does not exist").
Proof.
  refine (proj1 (getConfigParam_undefined_binding
                   (example_sandbox (object_literal [("timeout", VUndefined)])) "timeout" _)).
  vm_compute; reflexivity.
Defined.

(** The falsy values of the specification. *)
Example getConfigParam_empty_string :
  getConfigParam (example_sandbox (object_literal [("title", VStr "")])) "title"
  = inr (VStr "").
Proof. vm_compute; reflexivity. Qed.

Example getConfigParam_false :
  getConfigParam (example_sandbox (object_literal [("debug", VBool false)])) "debug"
  = inr (VBool false).
Proof. vm_compute; reflexivity. Qed.

Example getConfigParam_null :
  getConfigParam (example_sandbox (bare_object [("owner", VNull)])) "owner" = inr VNull.
Proof. vm_compute; reflexivity. Qed.

(* ===================================================================== *)
(** ** The relay: [addConnector] and [dispatch] *)
(* ===================================================================== *)

Section Relay.
Context {A : Type}.
Variable emit : connector -> value -> list value -> A -> reply A.
Implicit Types (this : Sandbox A) (origin c : connector) (payload : list value)
  (w : World A).

Lemma receivers_cons origin c cs :
  receivers origin (c :: cs)
  = (if bool_decide (c = origin) then [] else [c]) ++ receivers origin cs.
Proof.
  unfold receivers. rewrite filter_cons.
  case_bool_decide; case_decide; simplify_eq; done.
Qed.

Lemma receivers_app origin cs1 cs2 :
  receivers origin (cs1 ++ cs2) = receivers origin cs1 ++ receivers origin cs2.
Proof. apply filter_app. Qed.

(** The loop when no [emit] throws: one call per entry that is not the
    origin, in the order of the entries. *)
Lemma dispatch_loop_returns connectors origin payload w :
  Forall (emit_returns emit payload) (receivers origin connectors) ->
  exists a',
    dispatch_loop emit connectors origin payload w
    = Normal tt {| page := page w; outside := a';
                   log := log w ++ map (relayed payload) (receivers origin connectors) |}.
Proof.
  revert w. induction connectors as [|c cs IH]; intros w Hret.
  - exists (outside w). destruct w. simpl. by rewrite app_nil_r.
  - rewrite receivers_cons in Hret |- *. simpl.
    unfold bind at 1. case_bool_decide as Hc; simpl.
    + destruct (IH w Hret) as [a' ->]. by exists a'.
    + apply Forall_cons in Hret as [Hemit Hrest].
      destruct (Hemit (outside w)) as (v & a1 & E).
      unfold bind at 1, call. rewrite E. unfold ret at 1.
      edestruct (IH {| page := page w; outside := a1;
                       log := log w ++ [EvEmit c (VArray payload) []] |} Hrest)
        as [a' ->].
      exists a'. simpl. by rewrite <- app_assoc.
Qed.

(** The loop when the [emit] of one entry throws: the entries before it
    are served, the exception leaves the loop, the entries after it are
    not called. *)
Lemma dispatch_loop_throws before c after origin payload e w :
  Forall (emit_returns emit payload) (receivers origin before) ->
  c ≠ origin ->
  emit_throws emit payload c e ->
  exists a',
    dispatch_loop emit (before ++ c :: after) origin payload w
    = Abrupt e {| page := page w; outside := a';
                  log := log w ++ map (relayed payload) (receivers origin before)
                               ++ [relayed payload c] |}.
Proof.
  intros Hret Hc Hthrow. revert w Hret.
  induction before as [|b bs IH]; intros w Hret.
  - simpl. unfold bind at 1. rewrite bool_decide_eq_false_2 by done. simpl.
    destruct (Hthrow (outside w)) as (a1 & E).
    unfold bind at 1, call. rewrite E. by exists a1.
  - rewrite receivers_cons in Hret |- *. simpl.
    unfold bind at 1. case_bool_decide as Hb; simpl.
    + destruct (IH w Hret) as [a' ->]. by exists a'.
    + apply Forall_cons in Hret as [Hemit Hrest].
      destruct (Hemit (outside w)) as (v & a1 & E).
      unfold bind at 1, call. rewrite E. unfold ret at 1.
      edestruct (IH {| page := page w; outside := a1;
                       log := log w ++ [EvEmit b (VArray payload) []] |} Hrest)
        as [a' ->].
      exists a'. simpl. by rewrite <- !app_assoc.
Qed.

(** [dispatch] when no [emit] throws: every entry of the sequence that is
    not the origin gets one call of its [emit], an entry that is the
    origin gets none, and the sandbox is returned.  Each call passes the
    payload as [this] and no argument. *)
Lemma dispatch_returns this origin payload w :
  Forall (emit_returns emit payload) (receivers origin (_connectors this)) ->
  exists a',
    dispatch emit this origin payload w
    = Normal this {| page := page w; outside := a';
                     log := log w ++ map (relayed payload)
                                         (receivers origin (_connectors this)) |}.
Proof.
  intros H. unfold dispatch, bind.
  destruct (dispatch_loop_returns _ origin payload w H) as [a' ->].
  by exists a'.
Qed.

(** C8 (amended): when the [emit] of an entry throws, [dispatch] ends with
    that exception; the entries before it have been called, the entries
    after it are not called. *)
Theorem dispatch_emit_failure_aborts this before c after origin payload e w :
  _connectors this = before ++ c :: after ->
  Forall (emit_returns emit payload) (receivers origin before) ->
  c ≠ origin ->
  emit_throws emit payload c e ->
  exists a',
    dispatch emit this origin payload w
    = Abrupt e {| page := page w; outside := a';
                  log := log w ++ map (relayed payload) (receivers origin before)
                               ++ [relayed payload c] |}.
Proof.
  intros Hcs Hret Hc Hthrow. unfold dispatch, bind. rewrite Hcs.
  destruct (dispatch_loop_throws before c after origin payload e w Hret Hc Hthrow)
    as [a' ->].
  by exists a'.
Qed.

End Relay.

(** C1: [addConnector(11)] and then [dispatch(12, "changed", 1)].  The
    [emit] of connector [11] is called once, the origin being another
    object, but the payload is not among the arguments of the call:
    [emit.apply(args)] passes it as [this], and [emit] receives no argument
    at all. *)
Theorem dispatch_emit_receives_no_arguments :
  dispatch example_emit (addConnector (example_sandbox (object_literal [])) 11) 12
           [VStr "changed"; VNum 1] example_world
  = Normal (addConnector (example_sandbox (object_literal [])) 11)
           {| page := example_page; outside := 1;
              log := [EvEmit 11 (VArray [VStr "changed"; VNum 1]) []] |}.
Proof. reflexivity. Qed.

(** An endpoint that is registered twice is called twice, the origin is
    not called. *)
Example dispatch_twice_registered :
  log (final_world
         (dispatch example_emit
            (addConnector (addConnector (addConnector (example_sandbox (object_literal []))
                                           11) 12) 11)
            12 [VStr "changed"] example_world))
  = [EvEmit 11 (VArray [VStr "changed"]) []; EvEmit 11 (VArray [VStr "changed"]) []].
Proof. reflexivity. Qed.

(** C8, as stated, fails: the connectors are [13] and [11] and the [emit]
    of [13] throws.  [dispatch] ends with that exception and the [emit] of
    [11] is never called. *)
Lemma dispatch_failing_emit_skips_the_rest :
  dispatch example_emit
           (addConnector (addConnector (example_sandbox (object_literal [])) 13) 11)
           12 [VStr "changed"] example_world
  = Abrupt (Thrown (VStr "emit failed"))
           {| page := example_page; outside := 1;
              log := [EvEmit 13 (VArray [VStr "changed"]) []] |}.
Proof. reflexivity. Qed.

Lemma dispatch_emit_failure_aborts_witness :
  exists a',
    dispatch example_emit
             (addConnector (addConnector (addConnector (example_sandbox (object_literal []))
                                            11) 13) 14)
             12 [VStr "changed"] example_world
    = Abrupt (Thrown (VStr "emit failed"))
             {| page := example_page; outside := a';
                log := [EvEmit 11 (VArray [VStr "changed"]) [];
                        EvEmit 13 (VArray [VStr "changed"]) []] |}.
Proof.
  apply (dispatch_emit_failure_aborts example_emit
           (addConnector (addConnector (addConnector (example_sandbox (object_literal []))
                                          11) 13) 14)
           [11] 13 [14] 12 [VStr "changed"] (Thrown (VStr "emit failed")) example_world).
  - reflexivity.
  - apply Forall_cons. split; [|apply Forall_nil; exact I].
    intros a. exists VUndefined, (S a). reflexivity.
  - lia.
  - intros a. exists (S a). reflexivity.
Defined.

(* ===================================================================== *)
(** ** The page: finding, pruning and grafting *)
(* ===================================================================== *)

Section Page.
Implicit Types (n f p : node_id) (t r c : dnode) (d : DOM).

Lemma first_some_app {X Y : Type} (g : X -> option Y) (l1 l2 : list X) :
  first_some g (l1 ++ l2)
  = match first_some g l1 with Some y => Some y | None => first_some g l2 end.
Proof.
  induction l1 as [|x l1 IH]; simpl; [done|].
  destruct (g x); [done|apply IH].
Qed.

Lemma first_some_none {X Y : Type} (g : X -> option Y) (l : list X) :
  Forall (fun x => g x = None) l -> first_some g l = None.
Proof. induction 1 as [|x l Hx _ IH]; simpl; [done|]. by rewrite Hx. Qed.

Lemma first_some_elem {X Y : Type} (g : X -> option Y) (l : list X) (y : Y) :
  first_some g l = Some y -> exists x, x ∈ l /\ g x = Some y.
Proof.
  induction l as [|x l IH]; simpl; [done|].
  destruct (g x) as [y'|] eqn:E.
  - intros [= ->]. exists x. split; [left|done].
  - intros H. destruct (IH H) as (x' & Hin & Hx'). exists x'. split; [by right|done].
Qed.

Lemma tree_ids_unfold t : tree_ids t = nid t :: flat_map tree_ids (nkids t).
Proof. by destruct t. Qed.

Lemma elem_of_flat_map {X Y : Type} (g : X -> list Y) (l : list X) (y : Y) :
  y ∈ flat_map g l <-> exists x, x ∈ l /\ y ∈ g x.
Proof.
  rewrite list_elem_of_In, in_flat_map. 
  split; intros (x & H1 & H2); exists x; by rewrite ?list_elem_of_In in *.
Qed.

(** The fresh identity is above every identity of the page. *)
Lemma fresh_id_above d n : n ∈ forest_ids d -> n < fresh_id d.
Proof.
  unfold fresh_id. generalize (forest_ids d). intros l.
  induction l as [|x l IH]; simpl.
  - by intros ?%elem_of_nil.
  - intros [->|H]%elem_of_cons; [lia|]. specialize (IH H). lia.
Qed.

Lemma fresh_id_fresh d : fresh_id d ∉ forest_ids d.
Proof. intros H%fresh_id_above. lia. Qed.

(** A node that is found has the identity that was asked for and lies
    inside the tree. *)
Lemma tree_find_some n t r :
  tree_find n t = Some r -> nid r = n /\ tree_ids r ⊆ tree_ids t.
Proof.
  revert r. induction t as [i k a ks IH] using dnode_kids_ind. intros r.
  simpl. case_decide as Hi.
  - intros [= <-]. done.
  - intros (c & Hc & Hfind)%first_some_elem.
    rewrite Forall_forall in IH. destruct (IH c Hc r Hfind) as [Hid Hsub].
    split; [done|]. intros x Hx. right. apply elem_of_flat_map. exists c. split; [done|].
    by apply Hsub.
Qed.

Lemma tree_find_none n t : n ∉ tree_ids t -> tree_find n t = None.
Proof.
  induction t as [i k a ks IH] using dnode_kids_ind. simpl. intros Hn.
  case_decide as Hi; [subst; exfalso; apply Hn; left|].
  apply first_some_none. rewrite Forall_forall in IH |- *. intros c Hc.
  apply IH; [done|]. intros Hin. apply Hn. right. apply elem_of_flat_map. by exists c.
Qed.

Lemma forest_find_some n d r :
  forest_find n d = Some r -> nid r = n /\ tree_ids r ⊆ forest_ids d.
Proof.
  intros (t & Ht & Hfind)%first_some_elem.
  destruct (tree_find_some n t r Hfind) as [Hid Hsub]. split; [done|].
  intros x Hx. apply elem_of_flat_map. exists t. split; [done|by apply Hsub].
Qed.

Lemma forest_find_none n d : n ∉ forest_ids d -> forest_find n d = None.
Proof.
  intros Hn. apply first_some_none. rewrite Forall_forall. intros t Ht.
  apply tree_find_none. intros Hin. apply Hn. apply elem_of_flat_map. by exists t.
Qed.


Lemma nid_tree_prune n t : nid (tree_prune n t) = nid t.
Proof. by destruct t. Qed.

Lemma elem_of_pruned n (ks : list dnode) c' :
  c' ∈ filter (fun c => nid c ≠ n) (map (tree_prune n) ks) ->
  exists c, c ∈ ks /\ c' = tree_prune n c /\ nid c ≠ n.
Proof.
  intros [Hne (c & -> & Hc)%list_elem_of_fmap]%list_elem_of_filter.
  exists c. by rewrite nid_tree_prune in Hne.
Qed.

(** Pruning invents no node. *)
Lemma tree_prune_ids n t : tree_ids (tree_prune n t) ⊆ tree_ids t.
Proof.
  induction t as [i k a ks IH] using dnode_kids_ind. simpl.
  intros x [->|Hx]%elem_of_cons; [left|right].
  apply elem_of_flat_map in Hx as (c' & Hc' & Hx).
  apply elem_of_pruned in Hc' as (c & Hc & -> & _).
  rewrite Forall_forall in IH. apply elem_of_flat_map. exists c. split; [done|].
  by apply (IH c Hc).
Qed.

Lemma forest_prune_ids n d : forest_ids (forest_prune n d) ⊆ forest_ids d.
Proof.
  intros x (c' & Hc' & Hx)%elem_of_flat_map.
  apply elem_of_pruned in Hc' as (c & Hc & -> & _).
  apply elem_of_flat_map. exists c. split; [done|]. by apply (tree_prune_ids n c).
Qed.



(** Grafting below a node that is not there changes nothing. *)
Lemma tree_graft_absent p ts t : p ∉ tree_ids t -> tree_graft p ts t = t.
Proof.
  induction t as [i k a ks IH] using dnode_kids_ind. simpl. intros Hp.
  rewrite decide_False by (intros ->; apply Hp; left).
  rewrite app_nil_r. f_equal.
  rewrite <- (map_id ks) at 2. apply map_ext_Forall.
  rewrite Forall_forall in IH |- *. intros c Hc. apply IH; [done|].
  intros Hin. apply Hp. right. apply elem_of_flat_map. by exists c.
Qed.

Lemma forest_graft_absent p ts d : p ∉ forest_ids d -> forest_graft p ts d = d.
Proof.
  intros Hp. unfold forest_graft. rewrite <- (map_id d) at 2. apply map_ext_Forall.
  rewrite Forall_forall. intros c Hc. apply tree_graft_absent.
  intros Hin. apply Hp. apply elem_of_flat_map. by exists c.
Qed.



Section Fresh_fragment.
Variables (d : DOM) (n : node_id) (t : dnode).
Hypothesis found : forest_find n d = Some t.

Let f := fresh_id d.

Lemma found_not_fresh : n ≠ f.
Proof.
  destruct (forest_find_some n d t found) as [Hid Hsub].
  assert (n ∈ forest_ids d) as Hn%fresh_id_above.
  { apply Hsub. rewrite tree_ids_unfold, Hid. left. }
  unfold f. lia.
Qed.

Lemma fresh_not_below : f ∉ tree_ids t.
Proof.
  destruct (forest_find_some n d t found) as [_ Hsub].
  intros Hin. by apply (fresh_id_fresh d), Hsub.
Qed.

Lemma forest_prune_fragment :
  forest_prune n (d ++ [DNode f DocumentFragmentNode [] []])
  = forest_prune n d ++ [DNode f DocumentFragmentNode [] []].
Proof.
  unfold forest_prune. rewrite map_app, filter_app. f_equal.
  simpl. rewrite filter_cons, decide_True; [done|].
  simpl. pose proof found_not_fresh. done.
Qed.

Lemma forest_graft_fragment ts :
  forest_graft f ts (forest_prune n d ++ [DNode f DocumentFragmentNode [] []])
  = forest_prune n d ++ [DNode f DocumentFragmentNode [] ts].
Proof.
  unfold forest_graft. rewrite map_app. fold (forest_graft f ts (forest_prune n d)).
  rewrite forest_graft_absent.
  - simpl. by rewrite decide_True.
  - intros Hin. by apply (fresh_id_fresh d), (forest_prune_ids n d).
Qed.

(** Appending an element or a text node to the fragment that was just
    created moves its tree from the page into the fragment. *)
Lemma appendChild_fresh_fragment :
  nkind t = ElementNode \/ nkind t = CharacterDataNode ->
  appendChild f n (d ++ [DNode f DocumentFragmentNode [] []]) = inr (detached d n t).
Proof.
  intros Hkind. unfold appendChild.
  unfold forest_find. rewrite !first_some_app.
  fold (forest_find f d) (forest_find n d).
  rewrite found, (forest_find_none f d) by apply fresh_id_fresh.
  simpl. rewrite decide_True by done. simpl.
  rewrite bool_decide_eq_false_2 by apply fresh_not_below.
  unfold detached. fold f.
  destruct Hkind as [-> | ->];
    by rewrite forest_prune_fragment, forest_graft_fragment.
Qed.

(** A document, a doctype or an attribute is refused, and the page
    keeps the empty fragment. *)
Lemma appendChild_fresh_fragment_refused :
  nkind t = DocumentNode \/ nkind t = DocumentTypeNode \/ nkind t = AttrNode ->
  appendChild f n (d ++ [DNode f DocumentFragmentNode [] []])
  = inl (DOMException "HierarchyRequestError").
Proof.
  intros Hkind. unfold appendChild.
  unfold forest_find. rewrite !first_some_app.
  fold (forest_find f d) (forest_find n d).
  rewrite found, (forest_find_none f d) by apply fresh_id_fresh.
  simpl. rewrite decide_True by done. simpl.
  rewrite bool_decide_eq_false_2 by apply fresh_not_below.
  by destruct Hkind as [-> | [-> | ->]].
Qed.

(** What [querySelectorAll] finds below the fragment: the matching
    nodes of the tree that was moved, its root included. *)
Lemma querySelectorAll_detached name :
  querySelectorAll_attr name f (detached d n t)
  = List.filter (matches_attr name) (tree_nodes t).
Proof.
  unfold querySelectorAll_attr, detached, forest_find. fold f.
  rewrite first_some_app. fold (forest_find f (forest_prune n d)).
  rewrite forest_find_none.
  - simpl. rewrite decide_True by done. simpl. by rewrite app_nil_r.
  - intros Hin. by apply (fresh_id_fresh d), (forest_prune_ids n d).
Qed.



End Fresh_fragment.

End Page.

(* ===================================================================== *)
(** ** The life cycle: [addModules] and [removeModules] *)
(* ===================================================================== *)

Section Lifecycle.
Context {A : Type}.
Implicit Types (this : Sandbox A) (w : World A) (n : node_id) (t el : dnode)
  (lookup : value -> value).

Lemma extends_refl w : extends w w.
Proof. split; [done|]. exists []. by rewrite app_nil_r. Qed.

Lemma extends_trans w1 w2 w3 : extends w1 w2 -> extends w2 w3 -> extends w1 w3.
Proof.
  intros [Hp1 [r1 Hl1]] [Hp2 [r2 Hl2]]. split; [congruence|].
  exists (r1 ++ r2). by rewrite Hl2, Hl1, app_assoc.
Qed.

Lemma frames_ret {X : Type} (x : X) : frames (A:=A) (ret x).
Proof. intros w. apply extends_refl. Qed.

Lemma frames_call ev (f : A -> reply A) : frames (call ev f).
Proof.
  intros w. unfold call. destruct (f (outside w)); simpl; (split; [done|by exists [ev]]).
Qed.

Lemma frames_bind {X Y : Type} (m : M A X) (k : X -> M A Y) :
  frames m -> (forall x, frames (k x)) -> frames (bind m k).
Proof.
  intros Hm Hk w. unfold bind. specialize (Hm w).
  destruct (m w) as [x w1|e w1]; simpl in *; [|done].
  eapply extends_trans; [exact Hm|apply Hk].
Qed.



Lemma removeModules_unfold this modules :
  removeModules this modules = bind (modules_of this modules) (stop_and_unregister this).
Proof. reflexivity. Qed.

Lemma frames_stop_and_unregister this modules : frames (stop_and_unregister this modules).
Proof.
  unfold stop_and_unregister. apply frames_bind; [|intros; apply frames_ret].
  destruct (Array_isArray modules); [|apply frames_ret].
  apply frames_bind; [apply frames_call|intros _].
  apply frames_bind; [apply frames_call|intros _]. apply frames_ret.
Qed.

Lemma getAttribute_defined name el : is_undefined (getAttribute name el) = false.
Proof. unfold getAttribute. by destruct (list_find _ _) as [[? [? ?]]|]. Qed.

Lemma resolved_cons lookup el els :
  resolved lookup (el :: els)
  = (if truthy (lookup (module_id el)) then [lookup (module_id el)] else [])
      ++ resolved lookup els.
Proof. unfold resolved. simpl. by destruct (truthy _). Qed.


Section Node_argument.
Variables (this : Sandbox A) (w : World A) (n : node_id) (t : dnode).
Hypothesis found : forest_find n (page w) = Some t.
Hypothesis kind : nkind t = ElementNode \/ nkind t = CharacterDataNode.

Lemma modules_of_node :
  modules_of this (VNode n) w
  = (let! tmpModules := forEach (module_roots t) (collect_module this) [] in
     ret (VArray tmpModules)) (moved w n t).
Proof.
  unfold modules_of. unfold bind at 1, document_createDocumentFragment.
  unfold createDocumentFragment. cbv zeta. cbv iota.
  unfold bind at 1, Node_appendChild. simpl page. simpl outside. simpl log.
  rewrite (appendChild_fresh_fragment (page w) n t found kind).
  unfold bind at 1, Node_querySelectorAll. simpl page.
  rewrite (querySelectorAll_detached (page w) n t).
  unfold moved. by rewrite <- app_assoc.
Qed.

End Node_argument.

Lemma modules_of_array this (hs : list value) w :
  modules_of this (VArray hs) w = Normal (VArray hs) w.
Proof. reflexivity. Qed.

(** X17: when [stop] throws, [removeModules] ends with that exception and
    [unregisterModules] is not called. *)
Lemma removeModules_stop_raises this input hs w w1 e a1 :
  modules_of this input w = Normal (VArray hs) w1 ->
  stop (_application this) (VArray hs) (outside w1) = Raises e a1 ->
  removeModules this input w
  = Abrupt e {| page := page w1; outside := a1; log := log w1 ++ [EvStop (VArray hs)] |}.
Proof.
  intros Hmods Hstop. rewrite removeModules_unfold. unfold bind at 1. rewrite Hmods.
  unfold stop_and_unregister. simpl. unfold bind, call. by rewrite Hstop.
Qed.

(** C4: for a node, [addModules] returns the very value that
    [registerModules] returned, after [start] has been called with it;
    the two calls are the only ones, in this order. *)
Theorem addModules_returns_registered this n w hs a1 v a2 :
  registerModules (_application this) (VNode n) (outside w) = Returns hs a1 ->
  start (_application this) hs a1 = Returns v a2 ->
  addModules this (VNode n) w
  = Normal hs {| page := page w; outside := a2;
                 log := log w ++ [EvRegisterModules (VNode n); EvStart hs] |}.
Proof.
  intros Hreg Hstart. unfold addModules. simpl.
  unfold bind, call. rewrite Hreg. simpl. rewrite Hstart. unfold ret.
  by rewrite <- app_assoc.
Qed.

(** C5: for an argument that is not a node, [addModules] returns an
    empty array and leaves the world as it was: no call is made and
    nothing is thrown. *)
Theorem addModules_ignores_other_values this ctx w :
  instanceof_Node ctx = false ->
  addModules this ctx w = Normal (VArray []) w.
Proof. intros H. unfold addModules. by rewrite H. Qed.

(** [removeModules] from the point where the handles are at hand, when
    the application returns from both calls. *)
Lemma removeModules_with_handles this input hs w w1 v1 a1 v2 a2 :
  modules_of this input w = Normal (VArray hs) w1 ->
  stop (_application this) (VArray hs) (outside w1) = Returns v1 a1 ->
  unregisterModules (_application this) (VArray hs) a1 = Returns v2 a2 ->
  removeModules this input w
  = Normal this {| page := page w1; outside := a2;
                   log := log w1 ++ [EvStop (VArray hs);
                                     EvUnregisterModules (VArray hs)] |}.
Proof.
  intros Hmods Hstop Hunreg. rewrite removeModules_unfold. unfold bind at 1.
  rewrite Hmods. unfold stop_and_unregister. simpl.
  unfold bind, call. rewrite Hstop. simpl. rewrite Hunreg. unfold ret.
  by rewrite <- app_assoc.
Qed.

(** C6: once [removeModules] holds an array of handles, given as such or
    collected below a node, it calls [stop] with the array, then
    [unregisterModules] with the same array, and returns the sandbox. *)
Theorem removeModules_stops_then_unregisters this input hs w w1 v1 a1 v2 a2 :
  modules_of this input w = Normal (VArray hs) w1 ->
  stop (_application this) (VArray hs) (outside w1) = Returns v1 a1 ->
  unregisterModules (_application this) (VArray hs) a1 = Returns v2 a2 ->
  removeModules this input w
  = Normal this {| page := page w1; outside := a2;
                   log := log w1 ++ [EvStop (VArray hs);
                                     EvUnregisterModules (VArray hs)] |}.
Proof. apply removeModules_with_handles. Qed.



End Lifecycle.

Section Refused_node.
Context {A : Type}.

(** X13: [removeModules] with a document, a doctype or an attribute: the
    DOM refuses the node as a child of the fragment, the exception leaves
    [removeModules], the application is not called, and the empty fragment
    stays in the page. *)
Lemma removeModules_refused_node (this : Sandbox A) n t w :
  forest_find n (page w) = Some t ->
  nkind t = DocumentNode \/ nkind t = DocumentTypeNode \/ nkind t = AttrNode ->
  removeModules this (VNode n) w
  = Abrupt (DOMException "HierarchyRequestError")
      {| page := page w ++ [DNode (fresh_id (page w)) DocumentFragmentNode [] []];
         outside := outside w;
         log := log w ++ [EvCreateDocumentFragment (fresh_id (page w));
                          EvAppendChild (fresh_id (page w)) n] |}.
Proof.
  intros Hfound Hkind. rewrite removeModules_unfold. unfold bind at 1, modules_of.
  unfold bind at 1, document_createDocumentFragment, createDocumentFragment.
  cbv zeta. cbv iota.
  unfold bind at 1, Node_appendChild. simpl page. simpl outside. simpl log.
  rewrite (appendChild_fresh_fragment_refused (page w) n t Hfound Hkind).
  by rewrite <- app_assoc.
Qed.
End Refused_node.

(* ===================================================================== *)
(** ** The statements at the example page *)
(* ===================================================================== *)

Lemma addModules_returns_registered_witness :
  addModules (example_sandbox (object_literal [])) (VNode 2) example_world
  = Normal (VArray [VObject 101; VObject 102])
      {| page := example_page; outside := 2;
         log := [EvRegisterModules (VNode 2); EvStart (VArray [VObject 101; VObject 102])] |}.
Proof.
  apply (addModules_returns_registered (example_sandbox (object_literal [])) 2 example_world
           (VArray [VObject 101; VObject 102]) 1 VUndefined 2); reflexivity.
Defined.

Lemma addModules_ignores_other_values_witness :
  addModules (example_sandbox (object_literal [])) (VArray [VNode 2]) example_world
  = Normal (VArray []) example_world.
Proof.
  apply (addModules_ignores_other_values (example_sandbox (object_literal []))
           (VArray [VNode 2]) example_world).
  reflexivity.
Defined.

Example addModules_undefined :
  addModules (example_sandbox (object_literal [])) VUndefined example_world
  = Normal (VArray []) example_world.
Proof. reflexivity. Qed.

Example addModules_string :
  addModules (example_sandbox (object_literal [])) (VStr "#main") example_world
  = Normal (VArray []) example_world.
Proof. reflexivity. Qed.

Lemma removeModules_stops_then_unregisters_witness :
  removeModules (example_sandbox (object_literal [])) (VArray [VObject 101]) example_world
  = Normal (example_sandbox (object_literal []))
      {| page := example_page; outside := 2;
         log := [EvStop (VArray [VObject 101]); EvUnregisterModules (VArray [VObject 101])] |}.
Proof.
  apply (removeModules_stops_then_unregisters (example_sandbox (object_literal []))
           (VArray [VObject 101]) [VObject 101] example_world example_world
           VUndefined 1 VUndefined 2); reflexivity.
Defined.

(** The module roots below the [div] of the example page. *)
Example module_roots_example_main :
  map nid (module_roots example_main) = [3; 5; 7; 8].
Proof. reflexivity. Qed.



(** [removeModules(document)] throws. *)
Example removeModules_document :
  removeModules (example_sandbox (object_literal [])) (VNode 0) example_world
  = Abrupt (DOMException "HierarchyRequestError")
      {| page := example_page ++ [DNode 9 DocumentFragmentNode [] []];
         outside := 0;
         log := [EvCreateDocumentFragment 9; EvAppendChild 9 0] |}.
Proof. reflexivity. Qed.

(** [removeModules] with a fragment: its children move into the new
    fragment, the fragment given stays behind, empty. *)
Example removeModules_fragment :
  removeModules (example_sandbox (object_literal [])) (VNode 20)
    {| page := [ DNode 20 DocumentFragmentNode []
                   [ DNode 21 ElementNode [("data-t-name", "Teaser"); ("data-t-id", "1")] [] ] ];
       outside := 0; log := [] |}
  = Normal (example_sandbox (object_literal []))
      {| page := [ DNode 20 DocumentFragmentNode [] [];
                   DNode 22 DocumentFragmentNode []
                     [ DNode 21 ElementNode [("data-t-name", "Teaser"); ("data-t-id", "1")] [] ] ];
         outside := 2;
         log := [EvCreateDocumentFragment 22; EvAppendChild 22 20;
                 EvGetModuleById (VStr "1");
                 EvStop (VArray [VObject 101]);
                 EvUnregisterModules (VArray [VObject 101])] |}.
Proof. reflexivity. Qed.

(** When [stop] throws, the handles are not unregistered. *)
Example removeModules_stop_throws :
  removeModules
    (new_Sandbox
       {| registerModules := registerModules example_application;
          start := start example_application;
          stop := fun _ a => Raises (Thrown (VStr "stop failed")) a;
          unregisterModules := unregisterModules example_application;
          getModuleById := getModuleById example_application |}
       (object_literal []))
    (VArray [VObject 101]) example_world
  = Abrupt (Thrown (VStr "stop failed"))
      {| page := example_page; outside := 0; log := [EvStop (VArray [VObject 101])] |}.
Proof. reflexivity. Qed.

(* ===================================================================== *)
(** ** More on the relay *)
(* ===================================================================== *)

Section Relay_more.
Context {A : Type}.
Variable emit : connector -> value -> list value -> A -> reply A.
Implicit Types (this : Sandbox A) (origin c : connector) (payload : list value)
  (w : World A).

(** The connectors are the entries added, oldest first; nothing else of
    the sandbox changes. *)
Lemma foldl_addConnector this (cs : list connector) :
  _connectors (foldl addConnector this cs) = _connectors this ++ cs
  /\ _config (foldl addConnector this cs) = _config this
  /\ _application (foldl addConnector this cs) = _application this.
Proof.
  revert this. induction cs as [|c cs IH]; intros this; simpl.
  - by rewrite app_nil_r.
  - destruct (IH (addConnector this c)) as (-> & -> & ->). simpl.
    by rewrite <- app_assoc.
Qed.

Lemma receivers_not_origin origin cs : Forall (fun c => c ≠ origin) (receivers origin cs).
Proof. apply Forall_forall. by intros c [Hc _]%list_elem_of_filter. Qed.

(** The loop, whatever the [emit] methods do: the calls made are those for
    the first entries that are not the origin, and for all of them when the
    loop completes. *)
Lemma dispatch_loop_prefix connectors origin payload w :
  exists cs,
    cs `prefix_of` receivers origin connectors
    /\ page (final_world (dispatch_loop emit connectors origin payload w)) = page w
    /\ log (final_world (dispatch_loop emit connectors origin payload w))
       = log w ++ map (relayed payload) cs
    /\ (forall u w', dispatch_loop emit connectors origin payload w = Normal u w' ->
                     cs = receivers origin connectors).
Proof.
  revert w. induction connectors as [|c rest IH]; intros w.
  - exists []. simpl. rewrite app_nil_r. split_and!; done.
  - rewrite receivers_cons. simpl. unfold bind.
    case_bool_decide as Hc; simpl.
    + apply IH.
    + unfold call, ret.
      destruct (emit c (VArray payload) [] (outside w)) as [v a1|e a1]; simpl.
      * destruct (IH {| page := page w; outside := a1;
                        log := log w ++ [EvEmit c (VArray payload) []] |})
          as (cs & Hpre & Hpage & Hlog & Hall).
        exists (c :: cs). split; [by apply prefix_cons|]. split; [done|].
        split; [rewrite Hlog; simpl; by rewrite <- app_assoc|].
        intros u w' Hn. f_equal. by apply (Hall u w').
      * exists [c]. split; [apply prefix_cons, prefix_nil|]. split_and!; done.
Qed.

Lemma emit_calls_to_relayed payload c (cs : list connector) :
  emit_calls_to c (map (relayed payload) cs) = occurrences c cs.
Proof.
  unfold emit_calls_to, occurrences.
  induction cs as [|c' cs IH]; simpl; [done|].
  destruct (Nat.eqb c' c); simpl; by rewrite IH.
Qed.

Lemma occurrences_receivers origin c (cs : list connector) :
  occurrences c (receivers origin cs)
  = if bool_decide (c = origin) then 0 else occurrences c cs.
Proof.
  induction cs as [|c' cs IH]; [by case_bool_decide|].
  rewrite receivers_cons. unfold occurrences, connector, loc in *.
  rewrite List.filter_app, length_app, IH.
  simpl. destruct (Nat.eqb c' c) eqn:E.
  - apply Nat.eqb_eq in E as ->. repeat case_bool_decide; simpl; try done.
    all: rewrite ?Nat.eqb_refl; simpl; done.
  - apply Nat.eqb_neq in E. repeat case_bool_decide; simpl; try done.
    all: rewrite ?(proj2 (Nat.eqb_neq c' c)) by done; simpl; done.
Qed.

(** X1: a sandbox whose connectors were added by [addConnector] calls, and
    a [dispatch] during which no [emit] throws.  Every entry that is not
    the origin gets one call, in the order of the [addConnector] calls,
    with the payload as [this] and without arguments; the sandbox is
    returned and the page is as before. *)
Theorem dispatch_after_addConnector (application : Application A) (config : JSObject)
    (cs : list connector) origin payload w :
  Forall (emit_returns emit payload) (receivers origin cs) ->
  exists a',
    dispatch emit (foldl addConnector (new_Sandbox application config) cs) origin payload w
    = Normal (foldl addConnector (new_Sandbox application config) cs)
        {| page := page w; outside := a';
           log := log w ++ map (fun c => EvEmit c (VArray payload) [])
                               (filter (fun c => c ≠ origin) cs) |}.
Proof.
  intros Hret.
  destruct (foldl_addConnector (new_Sandbox application config) cs) as (Hcs & _ & _).
  simpl in Hcs.
  destruct (dispatch_returns emit (foldl addConnector (new_Sandbox application config) cs)
              origin payload w) as [a' E].
  - by rewrite Hcs.
  - exists a'. rewrite E, Hcs. reflexivity.
Qed.

(** X2: [dispatch], whatever the [emit] methods do.  The calls it makes
    are those for the first entries that are not the origin, in their
    order; the [emit] of the origin is never called; the page is as before;
    and when [dispatch] returns, it returns the sandbox and has called
    every entry that is not the origin. *)
Theorem dispatch_serves_a_prefix this origin payload w :
  exists cs,
    cs `prefix_of` receivers origin (_connectors this)
    /\ page (final_world (dispatch emit this origin payload w)) = page w
    /\ log (final_world (dispatch emit this origin payload w))
       = log w ++ map (relayed payload) cs
    /\ emit_calls_to origin (map (relayed payload) cs) = 0
    /\ (forall that w', dispatch emit this origin payload w = Normal that w' ->
                        that = this /\ cs = receivers origin (_connectors this)).
Proof.
  destruct (dispatch_loop_prefix (_connectors this) origin payload w)
    as (cs & Hpre & Hpage & Hlog & Hall).
  exists cs. unfold dispatch, bind.
  destruct (dispatch_loop emit (_connectors this) origin payload w) as [u w1|e w1] eqn:E;
    simpl in *.
  - split_and!; try done.
    + rewrite (Hall u w1 eq_refl), emit_calls_to_relayed, occurrences_receivers.
      by rewrite bool_decide_eq_true_2.
    + intros that w' [= <- _]. split; [done|]. by apply (Hall u w1).
  - split_and!; try done.
    rewrite emit_calls_to_relayed.
    assert (Hno : Forall (fun c => c ≠ origin) cs).
    { destruct Hpre as [k Hk]. pose proof (receivers_not_origin origin (_connectors this)) as H.
      rewrite Hk in H. by apply Forall_app in H as [H _]. }
    unfold occurrences. clear -Hno. induction Hno as [|c cs Hc _ IH]; simpl; [done|].
    by rewrite (proj2 (Nat.eqb_neq c origin)).
Qed.

(** X3: when no [emit] throws, [dispatch] calls the [emit] of a connector
    as often as the connector was registered, and the [emit] of the origin
    not at all. *)
Theorem dispatch_calls_by_multiplicity this origin payload w :
  Forall (emit_returns emit payload) (receivers origin (_connectors this)) ->
  exists w' rest,
    dispatch emit this origin payload w = Normal this w'
    /\ log w' = log w ++ rest
    /\ forall c, emit_calls_to c rest
                 = if bool_decide (c = origin) then 0 else occurrences c (_connectors this).
Proof.
  intros Hret. destruct (dispatch_returns emit this origin payload w Hret) as [a' E].
  eexists _, _. split; [exact E|]. split; [reflexivity|].
  intros c. by rewrite emit_calls_to_relayed, occurrences_receivers.
Qed.

End Relay_more.

(* ===================================================================== *)
(** ** More on the configuration *)
(* ===================================================================== *)

Section Configuration_more.
Context {A : Type}.
Implicit Types (this : Sandbox A) (k : string) (v : value).


(** X5: a key that the configuration object does not have itself is
    answered from its prototype chain: the value found there, when it is
    not [undefined], is returned. *)
Theorem getConfigParam_inherited_key this k v :
  own_props (_config this) !! k = None ->
  chain_get (proto_chain (_config this)) k = v ->
  v ≠ VUndefined ->
  getConfigParam this k = inr v.
Proof.
  intros Hown Hchain Hv. apply getConfigParam_defined; [|done].
  unfold js_get. simpl. by rewrite Hown.
Qed.

(** X6: [addConnector] touches the connectors only.  After any number of
    calls, [getConfig] returns the object the sandbox was created with and
    [getConfigParam] answers as before. *)
Theorem addConnector_keeps_configuration (application : Application A) (config : JSObject)
    (cs : list connector) k :
  getConfig (foldl addConnector (new_Sandbox application config) cs) = config
  /\ getConfigParam (foldl addConnector (new_Sandbox application config) cs) k
     = getConfigParam (new_Sandbox application config) k
  /\ _application (foldl addConnector (new_Sandbox application config) cs) = application
  /\ _connectors (foldl addConnector (new_Sandbox application config) cs) = cs.
Proof.
  destruct (foldl_addConnector (new_Sandbox application config) cs) as (Hcs & Hcfg & Happ).
  unfold getConfig, getConfigParam. rewrite Hcfg, Happ, Hcs. done.
Qed.

End Configuration_more.

(* ===================================================================== *)
(** ** More on the life cycle *)
(* ===================================================================== *)

Section Lifecycle_more.
Context {A : Type}.
Implicit Types (this : Sandbox A) (w : World A) (n : node_id) (t el : dnode)
  (lookup : value -> value).

Lemma adds_ret {X : Type} (P : event -> Prop) (x : X) : adds (A:=A) P (ret x).
Proof. intros w. exists []. simpl. by rewrite app_nil_r. Qed.

Lemma adds_call (P : event -> Prop) ev (f : A -> reply A) : P ev -> adds P (call ev f).
Proof.
  intros Hev w. exists [ev]. unfold call.
  destruct (f (outside w)); simpl; (split; [done|by apply Forall_singleton]).
Qed.

Lemma adds_bind {X Y : Type} (P : event -> Prop) (m : M A X) (k : X -> M A Y) :
  adds P m -> (forall x, adds P (k x)) -> adds P (bind m k).
Proof.
  intros Hm Hk w. unfold bind. destruct (Hm w) as (r1 & Hl1 & HP1).
  destruct (m w) as [x w1|e w1]; simpl in *; [|by exists r1].
  destruct (Hk x w1) as (r2 & Hl2 & HP2). exists (r1 ++ r2).
  split; [by rewrite Hl2, Hl1, app_assoc|by apply Forall_app].
Qed.

Lemma adds_forEach (P : event -> Prop) this (els : list dnode) acc :
  (forall id, P (EvGetModuleById id)) ->
  adds P (forEach els (collect_module this) acc).
Proof.
  intros HP. revert acc. induction els as [|el els IH]; intros acc; simpl.
  - apply adds_ret.
  - apply adds_bind; [|done]. unfold collect_module.
    destruct (negb _); [|apply adds_ret].
    apply adds_bind; [by apply adds_call|]. intros m. destruct (truthy m); apply adds_ret.
Qed.

(** Until the handles are at hand, [removeModules] calls neither [stop]
    nor [unregisterModules]. *)
Lemma modules_of_adds this input :
  adds (fun ev => is_teardown ev = false) (modules_of this input).
Proof.
  destruct input; try apply adds_ret. simpl.
  apply adds_bind.
  { intros w. unfold document_createDocumentFragment, createDocumentFragment. simpl.
    eexists. split; [reflexivity|by apply Forall_singleton]. }
  intros f. apply adds_bind.
  { intros w. unfold Node_appendChild. exists [EvAppendChild f n].
    destruct (appendChild f n (page w)); simpl; (split; [done|by apply Forall_singleton]). }
  intros _. apply adds_bind.
  { intros w. exists []. simpl. by rewrite app_nil_r. }
  intros found. apply adds_bind; [by apply adds_forEach|]. intros tmp. apply adds_ret.
Qed.

(** The loop over the module roots, when the lookups of the roots
    return. *)
Lemma forEach_collect_on this lookup els acc d a l :
  (forall el, el ∈ els ->
     getModuleById (_application this) (module_id el) a = Returns (lookup (module_id el)) a) ->
  forEach els (collect_module this) acc {| page := d; outside := a; log := l |}
  = Normal (acc ++ resolved lookup els)
           {| page := d; outside := a; log := l ++ lookups els |}.
Proof.
  revert acc l. induction els as [|el els IH]; intros acc l Hlookup.
  - simpl. unfold ret, resolved. simpl. by rewrite !app_nil_r.
  - simpl. unfold bind at 1, collect_module.
    rewrite getAttribute_defined. simpl.
    unfold bind at 1, Sandbox_getModuleById, call. simpl.
    fold (module_id el). rewrite (Hlookup el) by left.
    rewrite resolved_cons.
    destruct (truthy (lookup (module_id el))); unfold ret at 1;
      (rewrite IH by (intros x Hx; apply Hlookup; by right));
      simpl; by rewrite <- !app_assoc.
Qed.

(** The loop over the module roots, when the lookup of one root throws. *)
Lemma forEach_collect_raises this lookup before el after acc d a l e a' :
  (forall x, x ∈ before ->
     getModuleById (_application this) (module_id x) a = Returns (lookup (module_id x)) a) ->
  getModuleById (_application this) (module_id el) a = Raises e a' ->
  forEach (before ++ el :: after) (collect_module this) acc
          {| page := d; outside := a; log := l |}
  = Abrupt e {| page := d; outside := a';
                log := l ++ lookups before ++ [EvGetModuleById (module_id el)] |}.
Proof.
  intros Hbefore Hel. revert acc l. induction before as [|b bs IH]; intros acc l.
  - simpl. unfold bind at 1, collect_module.
    rewrite getAttribute_defined. simpl.
    unfold bind at 1, Sandbox_getModuleById, call. simpl.
    fold (module_id el). by rewrite Hel.
  - simpl. unfold bind at 1, collect_module.
    rewrite getAttribute_defined. simpl.
    unfold bind at 1, Sandbox_getModuleById, call. simpl.
    fold (module_id b). rewrite (Hbefore b) by left.
    destruct (truthy (lookup (module_id b))); unfold ret at 1;
      (rewrite IH by (intros x Hx; apply Hbefore; by right));
      simpl; by rewrite <- !app_assoc.
Qed.

Lemma getAttribute_absent name el :
  name ∉ map fst (nattrs el) -> getAttribute name el = VNull.
Proof.
  intros Hno. unfold getAttribute.
  destruct (list_find _ _) as [[i [k v]]|] eqn:E; [|done].
  apply list_find_Some in E as (Hi & Hk & _). simpl in Hk. subst k.
  exfalso. apply Hno. apply list_elem_of_fmap. exists (name, v). split; [done|].
  by apply list_elem_of_lookup_2 in Hi.
Qed.

Section Node_argument_more.
Variables (this : Sandbox A) (w : World A) (n : node_id) (t : dnode).
Hypothesis found : forest_find n (page w) = Some t.
Hypothesis kind : nkind t = ElementNode \/ nkind t = CharacterDataNode.



(** The handles when the lookups of the module roots return. *)
Lemma modules_of_node_returns lookup :
  (forall el, el ∈ module_roots t ->
     getModuleById (_application this) (module_id el) (outside w)
     = Returns (lookup (module_id el)) (outside w)) ->
  modules_of this (VNode n) w
  = Normal (VArray (resolved lookup (module_roots t)))
      {| page := detached (page w) n t; outside := outside w;
         log := log (moved w n t) ++ lookups (module_roots t) |}.
Proof.
  intros Hlookup. rewrite (modules_of_node this w n t found kind). unfold bind, moved.
  by rewrite (forEach_collect_on this lookup _ _ _ _ _ Hlookup).
Qed.

End Node_argument_more.

(** X7: when [registerModules] throws, [addModules] ends with that
    exception and [start] is not called. *)
Theorem addModules_registerModules_throws this n w e a1 :
  registerModules (_application this) (VNode n) (outside w) = Raises e a1 ->
  addModules this (VNode n) w
  = Abrupt e {| page := page w; outside := a1;
                log := log w ++ [EvRegisterModules (VNode n)] |}.
Proof. intros Hreg. unfold addModules. simpl. unfold bind, call. by rewrite Hreg. Qed.

(** X8: when [start] throws, [addModules] ends with that exception: the
    modules have been registered, but the caller does not receive them. *)
Theorem addModules_start_throws this n w hs a1 e a2 :
  registerModules (_application this) (VNode n) (outside w) = Returns hs a1 ->
  start (_application this) hs a1 = Raises e a2 ->
  addModules this (VNode n) w
  = Abrupt e {| page := page w; outside := a2;
                log := log w ++ [EvRegisterModules (VNode n); EvStart hs] |}.
Proof.
  intros Hreg Hstart. unfold addModules. simpl. unfold bind, call.
  rewrite Hreg. simpl. rewrite Hstart. by rewrite <- app_assoc.
Qed.

(** X9: [removeModules] with a value that is neither a node nor an array
    returns the sandbox and leaves the world as it was: no call is made and
    nothing is thrown. *)
Theorem removeModules_ignores_other_values this modules w :
  instanceof_Node modules = false ->
  Array_isArray modules = false ->
  removeModules this modules w = Normal this w.
Proof. intros Hnode Harr. by destruct modules. Qed.

(** X10: [removeModules], whatever its argument and whatever the
    application does.  It calls [stop] at most once and
    [unregisterModules] at most once, [unregisterModules] only directly
    after [stop] and with the same argument, and both only at the end;
    when it returns, it returns the sandbox. *)
Theorem removeModules_teardown_order this input w :
  (exists pre tail,
      log (final_world (removeModules this input w)) = log w ++ pre ++ tail
      /\ Forall (fun ev => is_teardown ev = false) pre
      /\ (tail = [] \/ exists m, tail = [EvStop m]
                                 \/ tail = [EvStop m; EvUnregisterModules m]))
  /\ (forall that w', removeModules this input w = Normal that w' -> that = this).
Proof.
  rewrite removeModules_unfold. unfold bind.
  destruct (modules_of_adds this input w) as (pre & Hlog & Hpre).
  destruct (modules_of this input w) as [m w1|e w1]; simpl in Hlog.
  - unfold stop_and_unregister, bind.
    destruct (Array_isArray m).
    + unfold call. destruct (stop (_application this) m (outside w1)) as [v1 a1|e1 a1]; simpl.
      * destruct (unregisterModules (_application this) m a1) as [v2 a2|e2 a2]; simpl.
        -- split; [|by intros that w' [= <- _]].
           exists pre, [EvStop m; EvUnregisterModules m].
           rewrite Hlog, <- !app_assoc. split; [done|]. split; [done|].
           right. exists m. by right.
        -- split; [|done].
           exists pre, [EvStop m; EvUnregisterModules m].
           rewrite Hlog, <- !app_assoc. split; [done|]. split; [done|].
           right. exists m. by right.
      * split; [|done]. exists pre, [EvStop m]. rewrite Hlog, <- ?app_assoc.
        split; [done|]. split; [done|]. right. exists m. by left.
    + simpl. split; [|by intros that w' [= <- _]].
      exists pre, []. rewrite app_nil_r. split; [done|]. split; [done|]. by left.
  - simpl. split; [|done]. exists pre, []. rewrite app_nil_r.
    split; [done|]. split; [done|]. by left.
Qed.

(** X11: below an element, when the lookup of a module root throws,
    [removeModules] ends with that exception.  The roots before it have
    been looked up, the roots after it are not, [stop] and
    [unregisterModules] are not called, and the node stays in the
    fragment. *)
Theorem removeModules_lookup_throws this n t w lookup before el after e a' :
  forest_find n (page w) = Some t ->
  nkind t = ElementNode \/ nkind t = CharacterDataNode ->
  module_roots t = before ++ el :: after ->
  (forall x, x ∈ before ->
     getModuleById (_application this) (module_id x) (outside w)
     = Returns (lookup (module_id x)) (outside w)) ->
  getModuleById (_application this) (module_id el) (outside w) = Raises e a' ->
  removeModules this (VNode n) w
  = Abrupt e {| page := detached (page w) n t; outside := a';
                log := log (moved w n t) ++ lookups before
                       ++ [EvGetModuleById (module_id el)] |}.
Proof.
  intros Hfound Hkind Hroots Hbefore Hel.
  rewrite removeModules_unfold. unfold bind at 1.
  rewrite (modules_of_node this w n t Hfound Hkind), Hroots. unfold bind at 1, moved.
  by rewrite (forEach_collect_raises this lookup before el after _ _ _ _ e a' Hbefore Hel).
Qed.

(** X12: below an element without module roots, [removeModules] makes no
    lookup and still calls [stop] and [unregisterModules], with an empty
    array. *)
Theorem removeModules_without_module_roots this n t w v1 a1 v2 a2 :
  forest_find n (page w) = Some t ->
  nkind t = ElementNode \/ nkind t = CharacterDataNode ->
  module_roots t = [] ->
  stop (_application this) (VArray []) (outside w) = Returns v1 a1 ->
  unregisterModules (_application this) (VArray []) a1 = Returns v2 a2 ->
  removeModules this (VNode n) w
  = Normal this
      {| page := detached (page w) n t; outside := a2;
         log := log (moved w n t) ++ [EvStop (VArray []); EvUnregisterModules (VArray [])] |}.
Proof.
  intros Hfound Hkind Hroots Hstop Hunreg.
  assert (Hmods : modules_of this (VNode n) w = Normal (VArray []) (moved w n t)).
  { rewrite (modules_of_node this w n t Hfound Hkind), Hroots. reflexivity. }
  by rewrite (removeModules_with_handles this _ _ _ _ v1 a1 v2 a2 Hmods Hstop Hunreg).
Qed.


(** X16: a module root that has no [data-t-id] attribute is looked up all
    the same, with [null] as the identifier: [getAttribute] answers [null],
    which is not [undefined]. *)
Theorem removeModules_looks_up_null this n t w lookup el :
  forest_find n (page w) = Some t ->
  nkind t = ElementNode \/ nkind t = CharacterDataNode ->
  (forall x, x ∈ module_roots t ->
     getModuleById (_application this) (module_id x) (outside w)
     = Returns (lookup (module_id x)) (outside w)) ->
  el ∈ module_roots t ->
  "data-t-id" ∉ map fst (nattrs el) ->
  EvGetModuleById VNull ∈ log (final_world (removeModules this (VNode n) w)).
Proof.
  intros Hfound Hkind Hlookup Hel Hno.
  rewrite removeModules_unfold. unfold bind at 1.
  rewrite (modules_of_node_returns this w n t Hfound Hkind lookup Hlookup).
  destruct (frames_stop_and_unregister this (VArray (resolved lookup (module_roots t)))
              {| page := detached (page w) n t; outside := outside w;
                 log := log (moved w n t) ++ lookups (module_roots t) |})
    as [_ [rest ->]].
  simpl. apply elem_of_app. left. apply elem_of_app. right.
  apply list_elem_of_fmap. exists el. split; [|done].
  unfold module_id. by rewrite getAttribute_absent.
Qed.

End Lifecycle_more.

(* ===================================================================== *)
(** ** A fragment as the argument of [removeModules] *)
(* ===================================================================== *)

Section Fragment_argument.
Context {A : Type}.
Implicit Types (n f p : node_id) (t r c : dnode) (d : DOM).

Lemma first_some_map {X Y Z : Type} (g : Y -> option Z) (h : X -> Y) (l : list X) :
  first_some g (map h l) = first_some (fun x => g (h x)) l.
Proof. induction l as [|x l IH]; simpl; [done|]. by rewrite IH. Qed.

Lemma first_some_ext {X Y : Type} (g h : X -> option Y) (l : list X) :
  Forall (fun x => g x = h x) l -> first_some g l = first_some h l.
Proof. induction 1 as [|x l Hx _ IH]; simpl; [done|]. by rewrite Hx, IH. Qed.

Lemma first_some_option_map {X Y Z : Type} (g : X -> option Y) (h : Y -> Z) (l : list X) :
  first_some (fun x => option_map h (g x)) l = option_map h (first_some g l).
Proof. induction l as [|x l IH]; simpl; [done|]. by destruct (g x). Qed.

Lemma nid_tree_clear p t : nid (tree_clear p t) = nid t.
Proof. by destruct t. Qed.

(** Emptying a node invents no node. *)
Lemma tree_clear_ids p t : tree_ids (tree_clear p t) ⊆ tree_ids t.
Proof.
  induction t as [i k a ks IH] using dnode_kids_ind. simpl.
  intros x [->|Hx]%elem_of_cons; [left|right].
  case_decide; [by apply elem_of_nil in Hx|].
  apply elem_of_flat_map in Hx as (c' & (c & -> & Hc)%list_elem_of_fmap & Hx).
  rewrite Forall_forall in IH. apply elem_of_flat_map. exists c. split; [done|].
  by apply (IH c Hc).
Qed.

Lemma forest_clear_ids p d : forest_ids (forest_clear p d) ⊆ forest_ids d.
Proof.
  intros x (c' & (c & -> & Hc)%list_elem_of_fmap & Hx)%elem_of_flat_map.
  apply elem_of_flat_map. exists c. split; [done|]. by apply (tree_clear_ids p c).
Qed.

(** The node that is emptied is found where it was, without children. *)
Lemma tree_find_clear n t :
  tree_find n (tree_clear n t) = option_map (tree_clear n) (tree_find n t).
Proof.
  induction t as [i k a ks IH] using dnode_kids_ind. simpl.
  case_decide as Hi; simpl; [by rewrite decide_True|].
  rewrite first_some_map, <- first_some_option_map.
  apply first_some_ext. done.
Qed.

Lemma forest_find_clear n d :
  forest_find n (forest_clear n d) = option_map (tree_clear n) (forest_find n d).
Proof.
  unfold forest_find, forest_clear.
  rewrite first_some_map, <- first_some_option_map.
  apply first_some_ext, Forall_forall. intros t _. apply tree_find_clear.
Qed.

Section Fresh_fragment_for_fragment.
Variables (d : DOM) (n : node_id) (t : dnode).
Hypothesis found : forest_find n d = Some t.
Hypothesis kind : nkind t = DocumentFragmentNode.

Lemma appendChild_fragment_to_fresh_fragment :
  appendChild (fresh_id d) n (d ++ [DNode (fresh_id d) DocumentFragmentNode [] []])
  = inr (handed_over d n t).
Proof.
  unfold appendChild, forest_find. rewrite !first_some_app.
  fold (forest_find (fresh_id d) d) (forest_find n d).
  rewrite found, (forest_find_none (fresh_id d) d) by apply fresh_id_fresh.
  simpl. rewrite decide_True by done. simpl.
  rewrite bool_decide_eq_false_2 by apply (fresh_not_below d n t found).
  rewrite kind. f_equal. unfold handed_over, forest_clear, forest_graft.
  rewrite !map_app. simpl.
  destruct (decide (fresh_id d = n)) as [_|_]; simpl;
    (rewrite decide_True by done);
    fold (forest_clear n d) (forest_graft (fresh_id d) (nkids t) (forest_clear n d));
    (rewrite forest_graft_absent; [done|]);
    intros Hin; by apply (fresh_id_fresh d), (forest_clear_ids n d).
Qed.

Lemma querySelectorAll_handed_over name :
  querySelectorAll_attr name (fresh_id d) (handed_over d n t)
  = List.filter (matches_attr name) (flat_map tree_nodes (nkids t)).
Proof.
  unfold querySelectorAll_attr, handed_over, forest_find.
  rewrite first_some_app. fold (forest_find (fresh_id d) (forest_clear n d)).
  rewrite forest_find_none.
  - simpl. by rewrite decide_True.
  - intros Hin. by apply (fresh_id_fresh d), (forest_clear_ids n d).
Qed.

(** The fragment that was given is still in the page, and empty. *)
Lemma forest_find_handed_over :
  forest_find n (handed_over d n t)
  = Some (DNode n DocumentFragmentNode (nattrs t) []).
Proof.
  unfold forest_find, handed_over. rewrite first_some_app.
  fold (forest_find n (forest_clear n d)).
  rewrite forest_find_clear, found. simpl.
  destruct (forest_find_some n d t found) as [Hid _].
  destruct t as [i k a ks]. simpl in *. subst. by rewrite decide_True.
Qed.

End Fresh_fragment_for_fragment.

(** X14: [removeModules] with a fragment.  The children of the fragment
    move into the new fragment and the fragment that was given stays
    behind, empty; the handles are those of the module roots among the
    children and below them. *)
Theorem removeModules_fragment_hands_over (this : Sandbox A) n t (w : World A)
    (lookup : value -> value) v1 a1 v2 a2 :
  forest_find n (page w) = Some t ->
  nkind t = DocumentFragmentNode ->
  (forall el, el ∈ module_roots_below (nkids t) ->
     getModuleById (_application this) (module_id el) (outside w)
     = Returns (lookup (module_id el)) (outside w)) ->
  stop (_application this) (VArray (resolved lookup (module_roots_below (nkids t))))
       (outside w) = Returns v1 a1 ->
  unregisterModules (_application this)
       (VArray (resolved lookup (module_roots_below (nkids t)))) a1 = Returns v2 a2 ->
  removeModules this (VNode n) w
  = Normal this
      {| page := handed_over (page w) n t;
         outside := a2;
         log := log w ++ [EvCreateDocumentFragment (fresh_id (page w));
                          EvAppendChild (fresh_id (page w)) n]
                ++ lookups (module_roots_below (nkids t))
                ++ [EvStop (VArray (resolved lookup (module_roots_below (nkids t))));
                    EvUnregisterModules
                      (VArray (resolved lookup (module_roots_below (nkids t))))] |}
  /\ forest_find n (handed_over (page w) n t)
     = Some (DNode n DocumentFragmentNode (nattrs t) []).
Proof.
  intros Hfound Hkind Hlookup Hstop Hunreg.
  split; [|by apply forest_find_handed_over].
  assert (Hmods : modules_of this (VNode n) w
                  = Normal (VArray (resolved lookup (module_roots_below (nkids t))))
                      {| page := handed_over (page w) n t; outside := outside w;
                         log := (log w ++ [EvCreateDocumentFragment (fresh_id (page w));
                                           EvAppendChild (fresh_id (page w)) n])
                                ++ lookups (module_roots_below (nkids t)) |}).
  { unfold modules_of. unfold bind at 1, document_createDocumentFragment.
    unfold createDocumentFragment. cbv zeta. cbv iota.
    unfold bind at 1, Node_appendChild. simpl page. simpl outside. simpl log.
    rewrite (appendChild_fragment_to_fresh_fragment (page w) n t Hfound Hkind).
    unfold bind at 1, Node_querySelectorAll. simpl page.
    rewrite (querySelectorAll_handed_over (page w) n t).
    fold (module_roots_below (nkids t)). unfold bind.
    rewrite (forEach_collect_on this lookup _ _ _ _ _ Hlookup).
    by rewrite <- !app_assoc. }
  rewrite (removeModules_with_handles this _ _ _ _ v1 a1 v2 a2 Hmods Hstop Hunreg).
  simpl. by rewrite <- !app_assoc.
Qed.

End Fragment_argument.

(* ===================================================================== *)
(** ** The further statements at the example page *)
(* ===================================================================== *)

Lemma dispatch_after_addConnector_witness :
  exists a',
    dispatch example_emit
      (foldl addConnector (new_Sandbox example_application (object_literal [])) [11; 12; 11])
      12 [VStr "changed"] example_world
    = Normal
        (foldl addConnector (new_Sandbox example_application (object_literal [])) [11; 12; 11])
        {| page := example_page; outside := a';
           log := [EvEmit 11 (VArray [VStr "changed"]) [];
                   EvEmit 11 (VArray [VStr "changed"]) []] |}.
Proof.
  apply (dispatch_after_addConnector example_emit example_application (object_literal [])
           [11; 12; 11] 12 [VStr "changed"] example_world).
  apply Forall_cons. split; [intros a; exists VUndefined, (S a); reflexivity|].
  apply Forall_cons. split; [intros a; exists VUndefined, (S a); reflexivity|].
  apply Forall_nil. exact I.
Defined.

Lemma dispatch_calls_by_multiplicity_witness :
  exists w' rest,
    dispatch example_emit
      (foldl addConnector (new_Sandbox example_application (object_literal [])) [11; 12; 11])
      12 [VStr "changed"] example_world
    = Normal
        (foldl addConnector (new_Sandbox example_application (object_literal [])) [11; 12; 11])
        w'
    /\ log w' = log example_world ++ rest
    /\ forall c, emit_calls_to c rest
                 = if bool_decide (c = 12) then 0 else occurrences c [11; 12; 11].
Proof.
  apply (dispatch_calls_by_multiplicity example_emit
           (foldl addConnector (new_Sandbox example_application (object_literal []))
                  [11; 12; 11])
           12 [VStr "changed"] example_world).
  apply Forall_cons. split; [intros a; exists VUndefined, (S a); reflexivity|].
  apply Forall_cons. split; [intros a; exists VUndefined, (S a); reflexivity|].
  apply Forall_nil. exact I.
Defined.

Lemma getConfigParam_inherited_key_witness :
  getConfigParam (example_sandbox (object_literal [("retries", VNum 0)])) "toString"
  = inr (VObject 2).
Proof.
  apply (getConfigParam_inherited_key
           (example_sandbox (object_literal [("retries", VNum 0)])) "toString" (VObject 2)).
  - vm_compute; reflexivity.
  - vm_compute; reflexivity.
  - discriminate.
Defined.

Lemma addModules_registerModules_throws_witness :
  addModules (new_Sandbox (faulty_application "registerModules") (object_literal []))
             (VNode 2) example_world
  = Abrupt (Thrown (VStr "registerModules"))
      {| page := example_page; outside := 0; log := [EvRegisterModules (VNode 2)] |}.
Proof.
  apply (addModules_registerModules_throws
           (new_Sandbox (faulty_application "registerModules") (object_literal []))
           2 example_world (Thrown (VStr "registerModules")) 0).
  reflexivity.
Defined.

Lemma addModules_start_throws_witness :
  addModules (new_Sandbox (faulty_application "start") (object_literal []))
             (VNode 2) example_world
  = Abrupt (Thrown (VStr "start"))
      {| page := example_page; outside := 1;
         log := [EvRegisterModules (VNode 2);
                 EvStart (VArray [VObject 101; VObject 102])] |}.
Proof.
  apply (addModules_start_throws
           (new_Sandbox (faulty_application "start") (object_literal []))
           2 example_world (VArray [VObject 101; VObject 102]) 1
           (Thrown (VStr "start")) 1); reflexivity.
Defined.

Lemma removeModules_ignores_other_values_witness :
  removeModules (example_sandbox (object_literal [])) (VStr "#main") example_world
  = Normal (example_sandbox (object_literal [])) example_world.
Proof.
  apply (removeModules_ignores_other_values (example_sandbox (object_literal []))
           (VStr "#main") example_world); reflexivity.
Defined.

Lemma removeModules_lookup_throws_witness :
  removeModules (new_Sandbox (faulty_application "getModuleById") (object_literal []))
                (VNode 2) example_world
  = Abrupt (Thrown (VStr "getModuleById"))
      {| page := [ DNode 0 DocumentNode [] [ DNode 1 ElementNode [] [] ];
                   DNode 9 DocumentFragmentNode [] [ example_main ] ];
         outside := 0;
         log := [EvCreateDocumentFragment 9; EvAppendChild 9 2;
                 EvGetModuleById (VStr "1"); EvGetModuleById (VStr "7")] |}.
Proof.
  apply (removeModules_lookup_throws
           (new_Sandbox (faulty_application "getModuleById") (object_literal []))
           2 example_main example_world example_lookup
           [DNode 3 ElementNode [("data-t-name", "Teaser"); ("data-t-id", "1")]
              [DNode 4 CharacterDataNode [] []]]
           (DNode 5 ElementNode [("data-t-name", "Gone"); ("data-t-id", "7")] [])
           [DNode 7 ElementNode [("data-t-name", "Slider"); ("data-t-id", "2")] [];
            DNode 8 ElementNode [("data-t-name", "Fresh")] []]
           (Thrown (VStr "getModuleById")) 0).
  - reflexivity.
  - left; reflexivity.
  - reflexivity.
  - intros x Hx. apply list_elem_of_singleton in Hx. rewrite Hx. reflexivity.
  - reflexivity.
Defined.

Lemma removeModules_without_module_roots_witness :
  removeModules (example_sandbox (object_literal [])) (VNode 6) example_world
  = Normal (example_sandbox (object_literal []))
      {| page := detached example_page 6 (DNode 6 ElementNode [("class", "plain")] []);
         outside := 2;
         log := [EvCreateDocumentFragment 9; EvAppendChild 9 6;
                 EvStop (VArray []); EvUnregisterModules (VArray [])] |}.
Proof.
  apply (removeModules_without_module_roots (example_sandbox (object_literal [])) 6
           (DNode 6 ElementNode [("class", "plain")] []) example_world
           VUndefined 1 VUndefined 2); try reflexivity.
  left; reflexivity.
Defined.

Lemma removeModules_refused_node_witness :
  removeModules (example_sandbox (object_literal [])) (VNode 0) example_world
  = Abrupt (DOMException "HierarchyRequestError")
      {| page := example_page ++ [DNode 9 DocumentFragmentNode [] []];
         outside := 0;
         log := [EvCreateDocumentFragment 9; EvAppendChild 9 0] |}.
Proof.
  apply (removeModules_refused_node (example_sandbox (object_literal [])) 0
           (DNode 0 DocumentNode [] [ DNode 1 ElementNode [] [ example_main ] ])
           example_world).
  - reflexivity.
  - left; reflexivity.
Defined.

Lemma removeModules_fragment_hands_over_witness :
  removeModules (example_sandbox (object_literal [])) (VNode 20)
    {| page := [ DNode 20 DocumentFragmentNode []
                   [ DNode 21 ElementNode [("data-t-name", "Teaser"); ("data-t-id", "1")] [];
                     DNode 22 ElementNode [("data-t-name", "Gone"); ("data-t-id", "7")] [] ] ];
       outside := 0; log := [] |}
  = Normal (example_sandbox (object_literal []))
      {| page := [ DNode 20 DocumentFragmentNode [] [];
                   DNode 23 DocumentFragmentNode []
                     [ DNode 21 ElementNode [("data-t-name", "Teaser"); ("data-t-id", "1")] [];
                       DNode 22 ElementNode [("data-t-name", "Gone"); ("data-t-id", "7")] [] ] ];
         outside := 2;
         log := [EvCreateDocumentFragment 23; EvAppendChild 23 20;
                 EvGetModuleById (VStr "1"); EvGetModuleById (VStr "7");
                 EvStop (VArray [VObject 101]);
                 EvUnregisterModules (VArray [VObject 101])] |}.
Proof.
  apply (proj1 (removeModules_fragment_hands_over (example_sandbox (object_literal [])) 20
                  (DNode 20 DocumentFragmentNode []
                     [ DNode 21 ElementNode [("data-t-name", "Teaser"); ("data-t-id", "1")] [];
                       DNode 22 ElementNode [("data-t-name", "Gone"); ("data-t-id", "7")] [] ])
                  {| page := [ DNode 20 DocumentFragmentNode []
                      [ DNode 21 ElementNode [("data-t-name", "Teaser"); ("data-t-id", "1")] [];
                        DNode 22 ElementNode [("data-t-name", "Gone"); ("data-t-id", "7")] [] ] ];
                     outside := 0; log := [] |}
                  example_lookup VUndefined 1 VUndefined 2
                  eq_refl eq_refl (fun el _ => eq_refl) eq_refl eq_refl)).
Defined.


Lemma removeModules_looks_up_null_witness :
  EvGetModuleById VNull
  ∈ log (final_world
           (removeModules (example_sandbox (object_literal [])) (VNode 2) example_world)).
Proof.
  apply (removeModules_looks_up_null (example_sandbox (object_literal [])) 2
           example_main example_world example_lookup
           (DNode 8 ElementNode [("data-t-name", "Fresh")] [])).
  - reflexivity.
  - left; reflexivity.
  - intros x _. reflexivity.
  - apply list_elem_of_In. vm_compute. tauto.
  - intros H. apply list_elem_of_In in H. simpl in H. destruct H as [H|[]]. discriminate H.
Defined.

Lemma removeModules_stop_raises_witness :
  removeModules (new_Sandbox (faulty_application "stop") (object_literal []))
                (VArray [VObject 101]) example_world
  = Abrupt (Thrown (VStr "stop"))
      {| page := example_page; outside := 0; log := [EvStop (VArray [VObject 101])] |}.
Proof.
  apply (removeModules_stop_raises
           (new_Sandbox (faulty_application "stop") (object_literal []))
           (VArray [VObject 101]) [VObject 101] example_world example_world
           (Thrown (VStr "stop")) 0); reflexivity.
Defined.
